(** * OlyObd: the OBD-II request/response engine of src/main.cpp

    A shallow embedding of the sketch and the properties of its frame
    codec, exchange, decoders and polling scheduler.

    Target.  The source header names the board: an Arduino UNO, that is
    an ATmega328P compiled by avr-gcc.  On that target
      - [byte] is an unsigned 8-bit integer,
      - [int] is a signed 16-bit integer (-32768 .. 32767),
      - [unsigned long] is an unsigned 32-bit integer.
    The operands of [*], [+], [-] and [/] of type [byte] are promoted to
    [int], so the arithmetic of the decoders is 16-bit signed arithmetic.
    A result outside the 16-bit range is a signed overflow (undefined
    in C++); the code that avr-gcc emits keeps the low 16 bits (two's
    complement), and that is what [to_int] writes out.  [int_fits] says
    when no overflow happens, and the lemmas on the decoders say for
    which bytes that is.

    Time.  [clock] counts the milliseconds since power-up; [millis()]
    returns it modulo 2^32.  [delay(n)] advances it by [n].  Asking the
    CAN controller for a frame takes the time the bus script gives for
    that poll ([busy]); nothing else takes time. *)

From Stdlib Require Import ZArith List Bool String Lia.
Import ListNotations.
Local Open Scope Z_scope.

(** * The model *)

(** ** Integer types of the target *)

Definition INT_BITS : Z := 16.
Definition INT_MIN : Z := - 2 ^ (INT_BITS - 1).
Definition INT_MAX : Z := 2 ^ (INT_BITS - 1) - 1.
Definition ULONG_MOD : Z := 2 ^ 32.

(** A value is representable in [int]. *)
Definition int_fits (z : Z) : Prop := INT_MIN <= z <= INT_MAX.

(** The low 16 bits of [z], read as a two's complement number. *)
Definition to_int (z : Z) : Z :=
  (z + 2 ^ (INT_BITS - 1)) mod 2 ^ INT_BITS - 2 ^ (INT_BITS - 1).

Definition int_add (a b : Z) : Z := to_int (a + b).
Definition int_sub (a b : Z) : Z := to_int (a - b).
Definition int_mul (a b : Z) : Z := to_int (a * b).
(** C++ [/] on integers truncates toward zero: [Z.quot]. *)
Definition int_div (a b : Z) : Z := to_int (Z.quot a b).

(** [unsigned long] subtraction, as in [millis() - startTime]. *)
Definition ulong_sub (a b : Z) : Z := (a - b) mod ULONG_MOD.

Definition is_byte (b : Z) : Prop := 0 <= b < 256.

(** ** Constants of the sketch *)

Definition PID_ENGINE_RPM : Z := 0x0C.
Definition PID_VEHICLE_SPEED : Z := 0x0D.
Definition PID_COOLANT_TEMP : Z := 0x05.
Definition PID_THROTTLE_POSITION : Z := 0x11.
Definition PID_ENGINE_LOAD : Z := 0x04.

Definition OBD_REQUEST_ID : Z := 0x7DF.
Definition OBD_RESPONSE_ID : Z := 0x7E8.

Definition OBD_REQUEST_INTERVAL : Z := 1000.
Definition CAN_TIMEOUT : Z := 100.

(** ** The receive buffer [byte buf[8]] and what the reader does with it *)

Record Buf8 : Type := mkBuf
  { c0 : Z; c1 : Z; c2 : Z; c3 : Z; c4 : Z; c5 : Z; c6 : Z; c7 : Z }.

(** [buf[i]]: defined for the eight cells of the array, nowhere else. *)
Definition cell (b : Buf8) (i : nat) : option Z :=
  match i with
  | 0%nat => Some (c0 b) | 1%nat => Some (c1 b) | 2%nat => Some (c2 b)
  | 3%nat => Some (c3 b) | 4%nat => Some (c4 b) | 5%nat => Some (c5 b)
  | 6%nat => Some (c6 b) | 7%nat => Some (c7 b)
  | _ => None
  end.

(** What [CAN.readMsgBuf(&len, buf)] and [CAN.getCanId()] hand over:
    the identifier, the reported length, and the eight cells of [buf] as
    they are after the call (the cells past [len] hold whatever the
    array held before). *)
Record CanFrame : Type := mkFrame
  { canId : Z; len : Z; buf : Buf8 }.

(** Reads of [buf]: the indices read, oldest first, and the value, or
    [None] when an index lies outside the array. *)
Definition Rd (A : Type) : Type := Buf8 -> list nat * option A.

Definition rd_ret {A : Type} (a : A) : Rd A := fun _ => ([], Some a).

Definition rd_bind {A B : Type} (m : Rd A) (k : A -> Rd B) : Rd B :=
  fun b =>
    match m b with
    | (l, Some a) => let (l', r) := k a b in (l ++ l', r)
    | (l, None) => (l, None)
    end.

Definition rd_at (i : nat) : Rd Z := fun b => ([i], cell b i).

Declare Scope rd_scope.
Delimit Scope rd_scope with rd.
Notation "x <~ c ; k" := (rd_bind c (fun x => k))
  (at level 61, c at next level, right associativity) : rd_scope.

(** [for (int i = 0; i < 5; i++) response[i] = buf[3 + i];]
    with [n] passes left and the counter at [i]. *)
Fixpoint copyData (i n : nat) : Rd (list Z) :=
  match n with
  | O => rd_ret []
  | S n' => (x <~ rd_at (3 + i) ;
             rest <~ copyData (S i) n' ;
             rd_ret (x :: rest))%rd
  end.

(** Lines 79-91 of [readOBDResponse]: the two nested tests and the copy.
    [Some response] stands for [return true] with [response] filled,
    [None] for falling through to [delay(5)]. *)
Definition takeResponse (pid id : Z) : Rd (option (list Z)) :=
  if (0x7E8 <=? id) && (id <=? 0x7EF) then
    (b1 <~ rd_at 1 ;
     if b1 =? 0x41 then
       (b2 <~ rd_at 2 ;
        if b2 =? pid then
          (response <~ copyData 0 5 ; rd_ret (Some response))
        else rd_ret None)
     else rd_ret None)%rd
  else rd_ret None.

(** The matching check: the frame passes both tests. *)
Definition isMatchingResponse (fr : CanFrame) (pid : Z) : bool :=
  match snd (takeResponse pid (canId fr) (buf fr)) with
  | Some (Some _) => true
  | _ => false
  end.

(** Payload bytes 3..7. *)
Definition extractData (fr : CanFrame) : list Z :=
  let b := buf fr in [c3 b; c4 b; c5 b; c6 b; c7 b].

(** ** The world the sketch runs in *)

(** What one pass of the polling loop meets when it asks the controller:
    a frame or none, and the milliseconds the asking takes. *)
Record Poll : Type := mkPoll
  { arrival : option CanFrame; busy : Z }.

(** Effects in the order they happen. *)
Inductive Event : Type :=
| CanSend (id ext dlc : Z) (data : list Z)   (* CAN.sendMsgBuf *)
| SerialPrint (s : string)                   (* Serial.print(F(..)) *)
| SerialPrintInt (n : Z)                     (* Serial.print(int) *)
| SerialPrintln (s : string)                 (* Serial.println *)
| StoreLastRequestTime (t : Z).              (* lastRequestTime = .. *)

Record World : Type := mkWorld
  { clock : Z;                 (* milliseconds since power-up *)
    bus : nat -> Poll;         (* the n-th poll of the controller *)
    polls : nat;               (* polls made so far *)
    lastRequestTime : Z;       (* the global of line 45 *)
    trace : list Event }.      (* effects so far, oldest first *)

(** [unsigned long lastRequestTime = 0;] and a controller not yet asked. *)
Definition power_on (b : nat -> Poll) : World :=
  {| clock := 0; bus := b; polls := 0; lastRequestTime := 0; trace := [] |}.

Inductive Outcome (A : Type) : Type :=
| Done (a : A) (w : World)
| OutOfFuel      (* the loop was cut before it ended *)
| Fault.         (* a read outside an array *)
Arguments Done {A} a w.
Arguments OutOfFuel {A}.
Arguments Fault {A}.

Definition M (A : Type) : Type := World -> Outcome A.

Definition ret {A : Type} (a : A) : M A := fun w => Done a w.

Definition bind {A B : Type} (m : M A) (k : A -> M B) : M B :=
  fun w =>
    match m w with
    | Done a w' => k a w'
    | OutOfFuel => OutOfFuel
    | Fault => Fault
    end.

Notation "x <- c ;; k" := (bind c (fun x => k))
  (at level 61, c at next level, right associativity).
Notation "c ;; k" := (bind c (fun _ => k))
  (at level 61, right associativity).

Definition emit (e : Event) : M unit :=
  fun w => Done tt {| clock := clock w; bus := bus w; polls := polls w;
                      lastRequestTime := lastRequestTime w;
                      trace := trace w ++ [e] |}.

Definition millis : M Z := fun w => Done (clock w mod ULONG_MOD) w.

Definition delay (ms : Z) : M unit :=
  fun w => Done tt {| clock := clock w + ms; bus := bus w; polls := polls w;
                      lastRequestTime := lastRequestTime w;
                      trace := trace w |}.

(** [CAN.checkReceive()] and, when it says [CAN_MSGAVAIL],
    [CAN.readMsgBuf] and [CAN.getCanId]. *)
Definition pollFrame : M (option CanFrame) :=
  fun w =>
    let p := bus w (polls w) in
    Done (arrival p)
         {| clock := clock w + busy p; bus := bus w; polls := S (polls w);
            lastRequestTime := lastRequestTime w; trace := trace w |}.

Definition get_lastRequestTime : M Z := fun w => Done (lastRequestTime w) w.

Definition set_lastRequestTime (t : Z) : M unit :=
  fun w => Done tt {| clock := clock w; bus := bus w; polls := polls w;
                      lastRequestTime := t;
                      trace := trace w ++ [StoreLastRequestTime t] |}.

(** Run the reads of a frame's buffer; a read outside it is a fault. *)
Definition reading {A : Type} (r : Rd A) (b : Buf8) : M A :=
  fun w => match snd (r b) with Some a => Done a w | None => Fault end.

(** ** The sketch *)

Definition sendOBDRequest (pid : Z) : M unit :=
  let request := [0x02; 0x01; pid; 0x00; 0x00; 0x00; 0x00; 0x00] in
  emit (CanSend OBD_REQUEST_ID 0 8 request).

(** The [while] loop of [readOBDResponse], cut after [fuel] tests of its
    condition. *)
Fixpoint awaitResponse (fuel : nat) (pid startTime : Z) : M (option (list Z)) :=
  match fuel with
  | O => fun _ => OutOfFuel
  | S fuel' =>
      now <- millis ;;
      if ulong_sub now startTime <? CAN_TIMEOUT then
        m <- pollFrame ;;
        match m with
        | Some fr =>
            r <- reading (takeResponse pid (canId fr)) (buf fr) ;;
            match r with
            | Some response => ret (Some response)
            | None => delay 5 ;; awaitResponse fuel' pid startTime
            end
        | None => delay 5 ;; awaitResponse fuel' pid startTime
        end
      else ret None
  end.

(** [Some response] is [true] with the caller's array filled, [None] is
    [false]. *)
Definition readOBDResponse (fuel : nat) (pid : Z) : M (option (list Z)) :=
  startTime <- millis ;;
  awaitResponse fuel pid startTime.

(** [response[i]] of the caller's [byte response[5]]. *)
Definition at5 (response : list Z) (i : nat) : Z := nth i response 0.

(** The decoding expressions of the five getters, each as written in
    its [return]; the operands are [byte]s promoted to [int]. *)
Definition rpm_of_response (response : list Z) : Z :=
  int_div (int_add (int_mul (at5 response 0) 256) (at5 response 1)) 4.
Definition speed_of_response (response : list Z) : Z :=
  to_int (at5 response 0).
Definition coolant_of_response (response : list Z) : Z :=
  int_sub (at5 response 0) 40.
Definition throttle_of_response (response : list Z) : Z :=
  int_div (int_mul (at5 response 0) 100) 255.
Definition load_of_response (response : list Z) : Z :=
  int_div (int_mul (at5 response 0) 100) 255.

Definition getEngineRPM (fuel : nat) : M Z :=
  sendOBDRequest PID_ENGINE_RPM ;;
  r <- readOBDResponse fuel PID_ENGINE_RPM ;;
  match r with
  | Some response => let rpm := rpm_of_response response in ret rpm
  | None => ret (-1)
  end.

Definition getVehicleSpeed (fuel : nat) : M Z :=
  sendOBDRequest PID_VEHICLE_SPEED ;;
  r <- readOBDResponse fuel PID_VEHICLE_SPEED ;;
  match r with
  | Some response => ret (speed_of_response response)
  | None => ret (-1)
  end.

Definition getCoolantTemp (fuel : nat) : M Z :=
  sendOBDRequest PID_COOLANT_TEMP ;;
  r <- readOBDResponse fuel PID_COOLANT_TEMP ;;
  match r with
  | Some response => ret (coolant_of_response response)
  | None => ret (-999)
  end.

Definition getThrottlePosition (fuel : nat) : M Z :=
  sendOBDRequest PID_THROTTLE_POSITION ;;
  r <- readOBDResponse fuel PID_THROTTLE_POSITION ;;
  match r with
  | Some response => ret (throttle_of_response response)
  | None => ret (-1)
  end.

Definition getEngineLoad (fuel : nat) : M Z :=
  sendOBDRequest PID_ENGINE_LOAD ;;
  r <- readOBDResponse fuel PID_ENGINE_LOAD ;;
  match r with
  | Some response => ret (load_of_response response)
  | None => ret (-1)
  end.

(** [while (1) { delay(1000); }]: no amount of fuel ends it. *)
Fixpoint halt (fuel : nat) : M unit :=
  match fuel with
  | O => fun _ => OutOfFuel
  | S fuel' => delay 1000 ;; halt fuel'
  end.

(** [begin_ok] is whether [CAN.begin(..)] answers [CAN_OK].
    [Serial.begin] and [CAN.setMode] configure the hardware and leave
    the world of this model as it is. *)
Definition setup (fuel : nat) (begin_ok : bool) : M unit :=
  emit (SerialPrintln "OlyObd - OBD-II CAN-BUS Reader") ;;
  emit (SerialPrintln "===============================") ;;
  emit (SerialPrintln "") ;;
  emit (SerialPrint "Initializing CAN-BUS Shield...") ;;
  (if begin_ok then emit (SerialPrintln " OK")
   else emit (SerialPrintln " FAILED") ;;
        emit (SerialPrintln "Check connections and reset Arduino") ;;
        halt fuel) ;;
  emit (SerialPrintln "CAN-BUS Shield initialized successfully") ;;
  emit (SerialPrintln "Waiting for OBD-II data...") ;;
  emit (SerialPrintln "") ;;
  delay 1000.

Definition loop (fuel : nat) : M unit :=
  currentTime <- millis ;;
  last <- get_lastRequestTime ;;
  (if OBD_REQUEST_INTERVAL <=? ulong_sub currentTime last then
     set_lastRequestTime currentTime ;;
     emit (SerialPrintln "--- Reading OBD-II Data ---") ;;
     rpm <- getEngineRPM fuel ;;
     (if 0 <=? rpm then
        emit (SerialPrint "Engine RPM: ") ;;
        emit (SerialPrintInt rpm) ;;
        emit (SerialPrintln " RPM")
      else emit (SerialPrintln "Engine RPM: READ FAILED")) ;;
     speed <- getVehicleSpeed fuel ;;
     (if 0 <=? speed then
        emit (SerialPrint "Vehicle Speed: ") ;;
        emit (SerialPrintInt speed) ;;
        emit (SerialPrintln " km/h")
      else emit (SerialPrintln "Vehicle Speed: READ FAILED")) ;;
     coolant <- getCoolantTemp fuel ;;
     (if negb (coolant =? -999) then
        emit (SerialPrint "Coolant Temp: ") ;;
        emit (SerialPrintInt coolant) ;;
        emit (SerialPrintln " °C")
      else emit (SerialPrintln "Coolant Temp: READ FAILED")) ;;
     throttle <- getThrottlePosition fuel ;;
     (if 0 <=? throttle then
        emit (SerialPrint "Throttle Position: ") ;;
        emit (SerialPrintInt throttle) ;;
        emit (SerialPrintln " %")
      else emit (SerialPrintln "Throttle Position: READ FAILED")) ;;
     load <- getEngineLoad fuel ;;
     (if 0 <=? load then
        emit (SerialPrint "Engine Load: ") ;;
        emit (SerialPrintInt load) ;;
        emit (SerialPrintln " %")
      else emit (SerialPrintln "Engine Load: READ FAILED")) ;;
     emit (SerialPrintln "")
   else ret tt) ;;
  delay 10.

(** * Vocabulary of the statements *)

(** ** Traces and outcomes *)

(** The PIDs of the requests in a trace, oldest first. *)
Fixpoint queried (evs : list Event) : list Z :=
  match evs with
  | [] => []
  | CanSend _ _ _ data :: rest => nth 2 data 0 :: queried rest
  | _ :: rest => queried rest
  end.

(** The stores to [lastRequestTime] in a trace, oldest first. *)
Fixpoint stores (evs : list Event) : list Z :=
  match evs with
  | [] => []
  | StoreLastRequestTime t :: rest => t :: stores rest
  | _ :: rest => stores rest
  end.

(** The value of a run that ended. *)
Definition value_of {A : Type} (o : Outcome A) : option A :=
  match o with Done a _ => Some a | _ => None end.

(** The request of [pid] as it appears in the trace. *)
Definition request_event (pid : Z) : Event :=
  CanSend OBD_REQUEST_ID 0 8 [0x02; 0x01; pid; 0x00; 0x00; 0x00; 0x00; 0x00].

Definition in_world {A : Type} (g : World -> World) (o : Outcome A) : Outcome A :=
  match o with
  | Done a w => Done a (g w)
  | OutOfFuel => OutOfFuel
  | Fault => Fault
  end.

(** ** One pass of the polling loop *)

(** The world after the controller was asked once. *)
Definition after_poll (w : World) : World :=
  {| clock := clock w + busy (bus w (polls w)); bus := bus w;
     polls := S (polls w); lastRequestTime := lastRequestTime w;
     trace := trace w |}.

(** The world after a whole pass: the poll and [delay(5)]. *)
Definition after_pass (w : World) : World :=
  {| clock := clock w + busy (bus w (polls w)) + 5; bus := bus w;
     polls := S (polls w); lastRequestTime := lastRequestTime w;
     trace := trace w |}.

(** What the exchange takes from a poll: the data of a matching frame,
    nothing from a frame that does not match or from no frame. *)
Definition heard (pid : Z) (p : Poll) : option (list Z) :=
  match arrival p with
  | Some fr => if isMatchingResponse fr pid then Some (extractData fr) else None
  | None => None
  end.

(** ** Changing the bus without changing what the exchange takes *)

Definition on_bus (f : Poll -> Poll) (w : World) : World :=
  {| clock := clock w; bus := fun k => f (bus w k); polls := polls w;
     lastRequestTime := lastRequestTime w; trace := trace w |}.

(** Erase from a poll the frame that does not match. *)
Definition mute (pid : Z) (p : Poll) : Poll :=
  match arrival p with
  | Some fr => if isMatchingResponse fr pid then p
               else {| arrival := None; busy := busy p |}
  | None => p
  end.

(** Replace the reported length of the frame of a poll. *)
Definition relen (g : Z -> Z) (p : Poll) : Poll :=
  match arrival p with
  | Some fr => {| arrival := Some (mkFrame (canId fr) (g (len fr)) (buf fr));
                  busy := busy p |}
  | None => p
  end.

(** ** The exchange ends, and when *)

(** Asking the controller never takes longer than [slack] ms. *)
Definition paced (slack : Z) (w : World) : Prop :=
  forall k, 0 <= busy (bus w k) <= slack.

(** What a finished wait leaves behind, for a wait that began at [s]:
    only the clock and the poll counter move; [false] comes at or after
    the deadline and before the deadline plus one pass, with nothing
    heard on the way; [true] comes with the first poll that hears a
    matching frame, asked before the deadline. *)
Definition wait_result (pid slack s : Z) (w : World)
  (r : option (list Z)) (w' : World) : Prop :=
  bus w' = bus w /\ lastRequestTime w' = lastRequestTime w
  /\ trace w' = trace w
  /\ (polls w <= polls w')%nat /\ clock w <= clock w'
  /\ match r with
     | None =>
         CAN_TIMEOUT <= clock w' - s < CAN_TIMEOUT + 5 + slack
         /\ forall k, (polls w <= k < polls w')%nat -> heard pid (bus w k) = None
     | Some d =>
         exists k, (polls w <= k)%nat /\ polls w' = S k
           /\ heard pid (bus w k) = Some d
           /\ (forall j, (polls w <= j < k)%nat -> heard pid (bus w j) = None)
           /\ clock w' - s < CAN_TIMEOUT + slack
     end.

(** ** Runs that end *)

(** [m] run in [w] ends, and its value and final world satisfy [Q]. *)
Definition sat {A : Type} (m : M A) (w : World) (Q : A -> World -> Prop) : Prop :=
  exists a w', m w = Done a w' /\ Q a w'.

(** The shape the five getters share: request, wait, decode or
    sentinel. *)
Definition query (pid : Z) (decode : list Z -> Z) (sentinel : Z)
    (fuel : nat) : M Z :=
  sendOBDRequest pid ;;
  r <- readOBDResponse fuel pid ;;
  match r with
  | Some response => ret (decode response)
  | None => ret sentinel
  end.

(** A run leaves [lastRequestTime] alone: same value, no store. *)
Definition untouched (w : World) {A : Type} (_ : A) (w' : World) : Prop :=
  lastRequestTime w' = lastRequestTime w
  /\ stores (trace w') = stores (trace w).

(** ** The sweep and the polling clock *)

(** The five PIDs of a sweep, in the order [loop] asks for them. *)
Definition sweep_pids : list Z :=
  [PID_ENGINE_RPM; PID_VEHICLE_SPEED; PID_COOLANT_TEMP;
   PID_THROTTLE_POSITION; PID_ENGINE_LOAD].

(** The test of line 208 in world [w]. *)
Definition sweep_due (w : World) : bool :=
  OBD_REQUEST_INTERVAL <=? ulong_sub (clock w mod ULONG_MOD) (lastRequestTime w).

(** What one call of [loop] leaves behind.  When a sweep is due:
    [lastRequestTime] holds the time read on entry, the store is the
    first effect, and the five requests follow it in order.  Otherwise
    nothing but the clock moves. *)
Definition loop_result (w w' : World) : Prop :=
  bus w' = bus w
  /\ if sweep_due w then
       lastRequestTime w' = clock w mod ULONG_MOD
       /\ exists rest,
            trace w' = trace w ++ StoreLastRequestTime (clock w mod ULONG_MOD) :: rest
            /\ stores rest = []
            /\ queried rest = sweep_pids
     else lastRequestTime w' = lastRequestTime w /\ trace w' = trace w.

(** "Written after each completed sweep", read on a trace: no request
    follows a store. *)
Definition stored_after_sweep (evs : list Event) : Prop :=
  forall pre t post,
    evs = pre ++ StoreLastRequestTime t :: post -> queried post = [].

(** ** Buses and worlds of the concrete runs *)

(** A bus on which nothing ever arrives. *)
Definition quiet_bus : nat -> Poll := fun _ => mkPoll None 0.

(** An ECU at 0x7E8 that has its answer [LEN 41 pid d0 d1 00 00 00]
    ready at every poll. *)
Definition ecu_bus (n pid d0 d1 : Z) : nat -> Poll :=
  fun _ => mkPoll (Some (mkFrame 0x7E8 n (mkBuf n 0x41 pid d0 d1 0 0 0))) 0.

(** A bus that offers two stray frames (a wrong identifier, then the
    answer to another PID) and then the answer [d0 d1] to [pid]. *)
Definition noisy_bus (pid d0 d1 : Z) : nat -> Poll :=
  fun k =>
    match k with
    | 0%nat => mkPoll (Some (mkFrame 0x7E7 8 (mkBuf 3 0x41 pid 1 2 3 4 5))) 0
    | 1%nat => mkPoll (Some (mkFrame 0x7E8 8 (mkBuf 3 0x41 (pid + 1) 1 2 3 4 5))) 0
    | _ => mkPoll (Some (mkFrame 0x7E8 8 (mkBuf 4 0x41 pid d0 d1 0 0 0))) 0
    end.

(** Power-up plus [t] milliseconds, nothing done yet. *)
Definition world_at (t : Z) (b : nat -> Poll) : World :=
  {| clock := t; bus := b; polls := 0; lastRequestTime := 0; trace := [] |}.

(** ** Getters, reports and bytes on the bus *)

(** The world right after [sendOBDRequest(pid)]. *)
Definition requested (pid : Z) (w : World) : World :=
  {| clock := clock w; bus := bus w; polls := polls w;
     lastRequestTime := lastRequestTime w;
     trace := trace w ++ [request_event pid] |}.

(** The first two data cells of every frame on the bus hold [byte]
    values, as the element type of [buf] says. *)
Definition byte_frames (w : World) : Prop :=
  forall k fr, arrival (bus w k) = Some fr ->
    is_byte (c3 (buf fr)) /\ is_byte (c4 (buf fr)).

(** The arguments of the [Serial.println] calls in a trace, oldest
    first. *)
Fixpoint printed_lines (evs : list Event) : list string :=
  match evs with
  | [] => []
  | SerialPrintln s :: rest => s :: printed_lines rest
  | _ :: rest => printed_lines rest
  end.

(** * Properties *)

(** ** Integer arithmetic of the target *)

(** Unfold the 16-bit operations down to [mod] on literals. *)
Ltac int_unfold :=
  unfold int_fits, int_div, int_add, int_sub, int_mul, to_int in *;
  change INT_MIN with (-32768) in *;
  change INT_MAX with 32767 in *;
  change (2 ^ (INT_BITS - 1)) with 32768 in *;
  change (2 ^ INT_BITS) with 65536 in *.

Lemma to_int_fits (z : Z) : int_fits z -> to_int z = z.
Proof.
  int_unfold. intros H. rewrite Z.mod_small; lia.
Qed.

Lemma to_int_range (z : Z) : int_fits (to_int z).
Proof.
  int_unfold. pose proof (Z.mod_pos_bound (z + 32768) 65536). lia.
Qed.

(** One wrap: a value between 2^15 and 2^16 + 2^15 - 1 loses 2^16. *)
Lemma to_int_wraps (z : Z) : 32768 <= z < 98304 -> to_int z = z - 65536.
Proof.
  int_unfold. intros H.
  replace (z + 32768) with ((z - 32768) + 1 * 65536) by lia.
  rewrite Z.mod_add by lia. rewrite Z.mod_small; lia.
Qed.

(** The product [byte0 * 256] fits [int] exactly for the low half of
    the bytes. *)
Lemma rpm_product_fits_iff (b0 : Z) :
  is_byte b0 -> (int_fits (b0 * 256) <-> b0 < 128).
Proof.
  unfold is_byte. int_unfold. lia.
Qed.

Lemma quot_bounds_nonneg (a b lo hi : Z) :
  0 < b -> 0 <= lo -> lo * b <= a -> a < (hi + 1) * b -> lo <= Z.quot a b <= hi.
Proof.
  intros Hb Hlo H1 H2. rewrite Z.quot_div_nonneg by nia.
  split.
  - apply Z.div_le_lower_bound; lia.
  - assert (a / b < hi + 1) by (apply Z.div_lt_upper_bound; lia). lia.
Qed.

(** [byte0 < 0x80]: no overflow, the table formula, 0..8191. *)
Lemma rpm_of_response_low (b0 b1 b2 b3 b4 : Z) :
  is_byte b0 -> is_byte b1 -> b0 < 128 ->
  rpm_of_response [b0; b1; b2; b3; b4] = (b0 * 256 + b1) / 4
  /\ 0 <= rpm_of_response [b0; b1; b2; b3; b4] <= 8191.
Proof.
  unfold is_byte, rpm_of_response, int_div, int_add, int_mul, at5. simpl.
  intros H0 H1 Hlow.
  assert (F : forall z, -32768 <= z <= 32767 -> to_int z = z).
  { intros z Hz. apply to_int_fits. int_unfold. lia. }
  rewrite (F (b0 * 256)) by lia.
  rewrite (F (b0 * 256 + b1)) by lia.
  assert (Q : 0 <= Z.quot (b0 * 256 + b1) 4 <= 8191)
    by (apply quot_bounds_nonneg; lia).
  rewrite F by lia.
  rewrite Z.quot_div_nonneg in * by lia. split; [reflexivity | lia].
Qed.

(** [byte0 >= 0x80]: the product overflows, the result is the quotient
    of a negative number and never the table formula. *)
Lemma rpm_of_response_high (b0 b1 b2 b3 b4 : Z) :
  is_byte b0 -> is_byte b1 -> 128 <= b0 ->
  rpm_of_response [b0; b1; b2; b3; b4] = Z.quot (b0 * 256 + b1 - 65536) 4
  /\ -8192 <= rpm_of_response [b0; b1; b2; b3; b4] <= 0
  /\ rpm_of_response [b0; b1; b2; b3; b4] <> (b0 * 256 + b1) / 4.
Proof.
  unfold is_byte, rpm_of_response, int_div, int_add, int_mul, at5. simpl.
  intros H0 H1 Hhigh.
  assert (F : forall z, -32768 <= z <= 32767 -> to_int z = z).
  { intros z Hz. apply to_int_fits. int_unfold. lia. }
  rewrite (to_int_wraps (b0 * 256)) by lia.
  rewrite (F (b0 * 256 - 65536 + b1)) by lia.
  replace (b0 * 256 - 65536 + b1) with (b0 * 256 + b1 - 65536) by lia.
  set (v := b0 * 256 + b1 - 65536).
  assert (Hv : -32768 <= v <= -1) by (unfold v; lia).
  assert (Hq : -8192 <= Z.quot v 4 <= 0).
  { replace v with (- (- v)) by lia. rewrite Z.quot_opp_l by lia.
    assert (0 <= Z.quot (- v) 4 <= 8192) by (apply quot_bounds_nonneg; lia).
    lia. }
  rewrite F by lia.
  assert (8192 <= (b0 * 256 + b1) / 4) by (apply Z.div_le_lower_bound; lia).
  repeat split; lia.
Qed.

(** X5.  For every payload of bytes the table formula
    (byte 0 * 256 + byte 1) / 4 lies in 0..16383, and the expression
    of [getEngineRPM] equals it exactly when byte 0 is below 0x80,
    that is when the product does not overflow [int]. *)
Lemma rpm_exact_iff (b0 b1 b2 b3 b4 : Z) :
  is_byte b0 -> is_byte b1 ->
  0 <= (b0 * 256 + b1) / 4 <= 16383
  /\ (rpm_of_response [b0; b1; b2; b3; b4] = (b0 * 256 + b1) / 4 <-> b0 < 128).
Proof.
  intros H0 H1. split.
  - unfold is_byte in *. split.
    + apply Z.div_le_lower_bound; lia.
    + assert ((b0 * 256 + b1) / 4 < 16384)
        by (apply Z.div_lt_upper_bound; lia). lia.
  - destruct (Z.lt_ge_cases b0 128) as [Hlow | Hhigh].
    + destruct (rpm_of_response_low b0 b1 b2 b3 b4 H0 H1 Hlow) as [E _].
      split; [intros _; exact Hlow | intros _; exact E].
    + destruct (rpm_of_response_high b0 b1 b2 b3 b4 H0 H1 Hhigh) as (_ & _ & N).
      split; [intros E; contradiction | lia].
Qed.


(** The other four expressions never overflow: the table formula, the
    table range, and never the sentinel of their getter. *)
Lemma small_decoders_exact (b0 b1 b2 b3 b4 : Z) :
  is_byte b0 ->
  let r := [b0; b1; b2; b3; b4] in
  (speed_of_response r = b0 /\ speed_of_response r <> -1)
  /\ (coolant_of_response r = b0 - 40 /\ -40 <= coolant_of_response r <= 215
      /\ coolant_of_response r <> -999)
  /\ (throttle_of_response r = (b0 * 100) / 255
      /\ 0 <= throttle_of_response r <= 100)
  /\ (load_of_response r = (b0 * 100) / 255
      /\ 0 <= load_of_response r <= 100).
Proof.
  unfold is_byte, speed_of_response, coolant_of_response,
    throttle_of_response, load_of_response, at5. cbn [nth].
  intros H0.
  assert (F : forall z, -32768 <= z <= 32767 -> to_int z = z).
  { intros z Hz. apply to_int_fits. int_unfold. lia. }
  assert (Q : 0 <= Z.quot (b0 * 100) 255 <= 100)
    by (apply quot_bounds_nonneg; lia).
  unfold int_sub, int_div, int_mul.
  rewrite (F b0), (F (b0 - 40)), (F (b0 * 100)) by lia.
  rewrite F by lia.
  rewrite Z.quot_div_nonneg in * by lia.
  repeat split; lia.
Qed.

(** The five worked examples of the decoder table. *)
Lemma decoder_examples :
  rpm_of_response [0x1A; 0xF8; 0; 0; 0] = 1726
  /\ speed_of_response [0x3C; 0; 0; 0; 0] = 60
  /\ coolant_of_response [0x5A; 0; 0; 0; 0] = 50
  /\ throttle_of_response [0x80; 0; 0; 0; 0] = 50
  /\ load_of_response [0xFF; 0; 0; 0; 0] = 100.
Proof. repeat split. Qed.

(** ** The RPM decoder on the 16-bit target *)

(** C2.  The ECU answers the RPM request with data bytes 0x80 0x00
    (8192 rpm).  The exchange succeeds, but [response[0] * 256] is
    32768, one more than the largest [int]: the getter returns -8192
    where the table formula gives 8192. *)
Theorem C2_rpm_formula_overflows_at_0x80 :
  value_of (getEngineRPM 21 (power_on (ecu_bus 4 PID_ENGINE_RPM 0x80 0x00)))
    = Some (rpm_of_response [0x80; 0x00; 0; 0; 0])
  /\ rpm_of_response [0x80; 0x00; 0; 0; 0] = -8192
  /\ (0x80 * 256 + 0x00) / 4 = 8192
  /\ ~ int_fits (0x80 * 256).
Proof.
  split; [vm_compute; reflexivity |].
  split; [vm_compute; reflexivity |].
  split; [reflexivity |].
  unfold int_fits. vm_compute. intros [_ H]. apply H. reflexivity.
Qed.

(** C3.  Data bytes 0xFF 0x00 (16320 rpm): the getter returns -64, a
    negative value outside 0..16383, and [loop], which takes a negative
    value for a failed read, reports a failure for an exchange that
    succeeded. *)
Theorem C3_rpm_negative_at_0xFF :
  value_of (readOBDResponse 21 PID_ENGINE_RPM
              (power_on (ecu_bus 4 PID_ENGINE_RPM 0xFF 0x00)))
    = Some (Some [0xFF; 0x00; 0; 0; 0])
  /\ value_of (getEngineRPM 21 (power_on (ecu_bus 4 PID_ENGINE_RPM 0xFF 0x00)))
     = Some (-64)
  /\ exists w',
       loop 21 (world_at 1000 (ecu_bus 4 PID_ENGINE_RPM 0xFF 0x00)) = Done tt w'
       /\ nth 2 (trace w') (SerialPrintln "") = request_event PID_ENGINE_RPM
       /\ nth 3 (trace w') (SerialPrintln "")
          = SerialPrintln "Engine RPM: READ FAILED".
Proof.
  split; [vm_compute; reflexivity |].
  split; [vm_compute; reflexivity |].
  eexists. split; [vm_compute; reflexivity |].
  split; reflexivity.
Qed.

(** C4.  Data bytes 0xFF 0xFC (16383 rpm): the exchange succeeds and
    the getter returns -1, the value it returns on a silent bus when
    the exchange times out. *)
Theorem C4_rpm_sentinel_from_payload :
  value_of (readOBDResponse 21 PID_ENGINE_RPM
              (power_on (ecu_bus 4 PID_ENGINE_RPM 0xFF 0xFC)))
    = Some (Some [0xFF; 0xFC; 0; 0; 0])
  /\ value_of (getEngineRPM 21 (power_on (ecu_bus 4 PID_ENGINE_RPM 0xFF 0xFC)))
     = Some (-1)
  /\ value_of (readOBDResponse 21 PID_ENGINE_RPM (power_on quiet_bus)) = Some None
  /\ value_of (getEngineRPM 21 (power_on quiet_bus)) = Some (-1).
Proof. repeat split. Qed.

(** ** The frame codec *)

Lemma takeResponse_run (pid id : Z) (b : Buf8) :
  takeResponse pid id b =
  if (0x7E8 <=? id) && (id <=? 0x7EF) then
    if c1 b =? 0x41 then
      if c2 b =? pid then
        ([1; 2; 3; 4; 5; 6; 7]%nat, Some (Some [c3 b; c4 b; c5 b; c6 b; c7 b]))
      else ([1; 2]%nat, Some None)
    else ([1]%nat, Some None)
  else ([], Some None).
Proof.
  unfold takeResponse.
  destruct ((0x7E8 <=? id) && (id <=? 0x7EF)); [| reflexivity].
  unfold rd_bind at 1. cbn [rd_at cell].
  destruct (c1 b =? 0x41); [| reflexivity].
  unfold rd_bind at 1. cbn [rd_at cell].
  destruct (c2 b =? pid); reflexivity.
Qed.

Lemma isMatchingResponse_run (fr : CanFrame) (pid : Z) :
  isMatchingResponse fr pid =
  (0x7E8 <=? canId fr) && (canId fr <=? 0x7EF)
  && (c1 (buf fr) =? 0x41) && (c2 (buf fr) =? pid).
Proof.
  unfold isMatchingResponse. rewrite takeResponse_run.
  destruct ((0x7E8 <=? canId fr) && (canId fr <=? 0x7EF)); [| reflexivity].
  destruct (c1 (buf fr) =? 0x41); [| reflexivity].
  destruct (c2 (buf fr) =? pid); reflexivity.
Qed.

(** C1.  The matching check accepts a frame exactly when its identifier
    is in 0x7E8..0x7EF, byte 1 is 0x41 and byte 2 is the queried PID; in
    particular identifiers 0x7E7 and 0x7F0 and mode bytes 0x40 and 0x42
    are rejected. *)
Theorem C1_matching_iff (fr : CanFrame) (pid : Z) :
  (isMatchingResponse fr pid = true <->
     0x7E8 <= canId fr <= 0x7EF /\ c1 (buf fr) = 0x41 /\ c2 (buf fr) = pid)
  /\ (canId fr = 0x7E7 -> isMatchingResponse fr pid = false)
  /\ (canId fr = 0x7F0 -> isMatchingResponse fr pid = false)
  /\ (c1 (buf fr) = 0x40 -> isMatchingResponse fr pid = false)
  /\ (c1 (buf fr) = 0x42 -> isMatchingResponse fr pid = false).
Proof.
  rewrite isMatchingResponse_run.
  repeat split.
  - rewrite !andb_true_iff in H. lia.
  - rewrite !andb_true_iff in H. lia.
  - rewrite !andb_true_iff in H. lia.
  - rewrite !andb_true_iff in H. lia.
  - intros (Hid & H1 & H2). rewrite !andb_true_iff. lia.
  - intros ->. reflexivity.
  - intros ->. reflexivity.
  - intros ->. rewrite andb_false_r. reflexivity.
  - intros ->. rewrite andb_false_r. reflexivity.
Qed.

(** C6.  A request is one transmission to the functional broadcast
    address 0x7DF, eight bytes long: 0x02, 0x01, the PID, and five
    bytes 0x00. *)
Theorem C6_request_frame (pid : Z) (w : World) :
  exists data,
    sendOBDRequest pid w =
      Done tt {| clock := clock w; bus := bus w; polls := polls w;
                 lastRequestTime := lastRequestTime w;
                 trace := trace w ++ [CanSend 0x7DF 0 8 data] |}
    /\ List.length data = 8%nat
    /\ nth 0 data 0xFF = 0x02
    /\ nth 1 data 0xFF = 0x01
    /\ nth 2 data 0xFF = pid
    /\ forall i, (3 <= i <= 7)%nat -> nth i data 0xFF = 0x00.
Proof.
  exists [0x02; 0x01; pid; 0x00; 0x00; 0x00; 0x00; 0x00].
  repeat split.
  intros i Hi.
  destruct i as [|[|[|[|[|[|[|[|i]]]]]]]]; try lia; reflexivity.
Qed.

(** ** One pass of the polling loop *)

Lemma await_step (fuel : nat) (pid s : Z) (w : World) :
  awaitResponse (S fuel) pid s w =
  if ulong_sub (clock w mod ULONG_MOD) s <? CAN_TIMEOUT then
    match heard pid (bus w (polls w)) with
    | Some d => Done (Some d) (after_poll w)
    | None => awaitResponse fuel pid s (after_pass w)
    end
  else Done None w.
Proof.
  cbn [awaitResponse]. unfold bind at 1. cbn [millis].
  destruct (ulong_sub (clock w mod ULONG_MOD) s <? CAN_TIMEOUT); [| reflexivity].
  unfold bind at 1. cbn [pollFrame]. unfold heard.
  destruct (arrival (bus w (polls w))) as [fr |]; [| reflexivity].
  unfold bind at 1, reading, isMatchingResponse, extractData.
  rewrite takeResponse_run.
  destruct ((0x7E8 <=? canId fr) && (canId fr <=? 0x7EF)); [| reflexivity].
  destruct (c1 (buf fr) =? 0x41); [| reflexivity].
  destruct (c2 (buf fr) =? pid); reflexivity.
Qed.

Lemma read_is_await (fuel : nat) (pid : Z) (w : World) :
  readOBDResponse fuel pid w = awaitResponse fuel pid (clock w mod ULONG_MOD) w.
Proof. reflexivity. Qed.

Lemma ulong_sub_mod (a b : Z) :
  ulong_sub (a mod ULONG_MOD) (b mod ULONG_MOD) = (a - b) mod ULONG_MOD.
Proof.
  unfold ulong_sub. rewrite Zminus_mod_idemp_l, Zminus_mod_idemp_r. reflexivity.
Qed.

(** The reader never reads outside [buf]. *)
Lemma await_no_fault (pid s : Z) :
  forall fuel w, awaitResponse fuel pid s w <> Fault.
Proof.
  induction fuel as [| fuel IH]; intros w.
  - discriminate.
  - rewrite await_step.
    destruct (ulong_sub (clock w mod ULONG_MOD) s <? CAN_TIMEOUT); [| discriminate].
    destruct (heard pid (bus w (polls w))); [discriminate | apply IH].
Qed.

Lemma await_on_bus (f : Poll -> Poll) (pid s : Z) :
  (forall p, busy (f p) = busy p /\ heard pid (f p) = heard pid p) ->
  forall fuel w,
    awaitResponse fuel pid s (on_bus f w)
    = in_world (on_bus f) (awaitResponse fuel pid s w).
Proof.
  intros Hf. induction fuel as [| fuel IH]; intros w.
  - reflexivity.
  - rewrite !await_step. cbn [on_bus clock bus polls].
    destruct (ulong_sub (clock w mod ULONG_MOD) s <? CAN_TIMEOUT); [| reflexivity].
    destruct (Hf (bus w (polls w))) as [Hb Hh]. rewrite Hh.
    destruct (heard pid (bus w (polls w))).
    + cbn [in_world]. unfold after_poll, on_bus. cbn [clock bus polls lastRequestTime trace].
      rewrite Hb. reflexivity.
    + rewrite <- IH. unfold after_pass, on_bus. cbn [clock bus polls lastRequestTime trace].
      rewrite Hb. reflexivity.
Qed.

Lemma mute_same (pid : Z) (p : Poll) :
  busy (mute pid p) = busy p /\ heard pid (mute pid p) = heard pid p.
Proof.
  unfold mute, heard. destruct p as [[fr |] b]; cbn [arrival busy]; auto.
  destruct (isMatchingResponse fr pid) eqn:E; cbn [arrival busy]; auto.
  rewrite E. auto.
Qed.

Lemma relen_same (g : Z -> Z) (pid : Z) (p : Poll) :
  busy (relen g p) = busy p /\ heard pid (relen g p) = heard pid p.
Proof.
  unfold relen, heard. destruct p as [[fr |] b]; cbn [arrival busy]; auto.
Qed.

(** C10.  Whatever frame the controller hands over, the reader reads
    [buf] at indices among 1..7 only, all inside the 8-byte array, so it
    never faults; the reported length takes no part: the matching check
    and the whole exchange are the same for any other length. *)
Theorem C10_reads_stay_inside_buf (pid : Z) (fr : CanFrame) :
  let run := takeResponse pid (canId fr) (buf fr) in
  Forall (fun i => (1 <= i <= 7)%nat /\ cell (buf fr) i <> None) (fst run)
  /\ snd run <> None
  /\ (forall n, isMatchingResponse (mkFrame (canId fr) n (buf fr)) pid
                = isMatchingResponse fr pid)
  /\ (forall fuel w, readOBDResponse fuel pid w <> Fault)
  /\ (forall g fuel w,
        readOBDResponse fuel pid (on_bus (relen g) w)
        = in_world (on_bus (relen g)) (readOBDResponse fuel pid w)).
Proof.
  cbv zeta. rewrite takeResponse_run.
  split; [| split; [| split; [| split]]].
  - destruct ((0x7E8 <=? canId fr) && (canId fr <=? 0x7EF)); cbn [fst];
      [| constructor].
    destruct (c1 (buf fr) =? 0x41); cbn [fst];
      [| repeat constructor; discriminate].
    destruct (c2 (buf fr) =? pid); cbn [fst];
      repeat constructor; discriminate.
  - destruct ((0x7E8 <=? canId fr) && (canId fr <=? 0x7EF)); [| discriminate].
    destruct (c1 (buf fr) =? 0x41); [| discriminate].
    destruct (c2 (buf fr) =? pid); discriminate.
  - intros n. rewrite !isMatchingResponse_run. reflexivity.
  - intros fuel w. rewrite read_is_await. apply await_no_fault.
  - intros g fuel w. rewrite !read_is_await.
    apply (await_on_bus (relen g) pid (clock w mod ULONG_MOD) (relen_same g pid)).
Qed.

(** ** Rules for runs that end *)

Lemma sat_ret {A : Type} (a : A) (w : World) (Q : A -> World -> Prop) :
  Q a w -> sat (ret a) w Q.
Proof. intros H. exists a, w. split; [reflexivity | exact H]. Qed.

Lemma sat_bind {A B : Type} (m : M A) (k : A -> M B) (w : World)
    (Q : B -> World -> Prop) :
  sat m w (fun a w1 => sat (k a) w1 Q) -> sat (bind m k) w Q.
Proof.
  intros (a & w1 & Hm & b & w2 & Hk & HQ).
  exists b, w2. split; [| exact HQ]. unfold bind. rewrite Hm. exact Hk.
Qed.

Lemma sat_emit (e : Event) (w : World) (Q : unit -> World -> Prop) :
  Q tt {| clock := clock w; bus := bus w; polls := polls w;
          lastRequestTime := lastRequestTime w; trace := trace w ++ [e] |} ->
  sat (emit e) w Q.
Proof. intros H. eexists _, _. split; [reflexivity | exact H]. Qed.

Lemma sat_delay (ms : Z) (w : World) (Q : unit -> World -> Prop) :
  Q tt {| clock := clock w + ms; bus := bus w; polls := polls w;
          lastRequestTime := lastRequestTime w; trace := trace w |} ->
  sat (delay ms) w Q.
Proof. intros H. eexists _, _. split; [reflexivity | exact H]. Qed.

Lemma sat_millis (w : World) (Q : Z -> World -> Prop) :
  Q (clock w mod ULONG_MOD) w -> sat millis w Q.
Proof. intros H. eexists _, _. split; [reflexivity | exact H]. Qed.

Lemma sat_get_lastRequestTime (w : World) (Q : Z -> World -> Prop) :
  Q (lastRequestTime w) w -> sat get_lastRequestTime w Q.
Proof. intros H. eexists _, _. split; [reflexivity | exact H]. Qed.

Lemma sat_set_lastRequestTime (t : Z) (w : World) (Q : unit -> World -> Prop) :
  Q tt {| clock := clock w; bus := bus w; polls := polls w;
          lastRequestTime := t;
          trace := trace w ++ [StoreLastRequestTime t] |} ->
  sat (set_lastRequestTime t) w Q.
Proof. intros H. eexists _, _. split; [reflexivity | exact H]. Qed.

Lemma queried_app (a b : list Event) : queried (a ++ b) = queried a ++ queried b.
Proof.
  induction a as [| e a IH]; [reflexivity |].
  destruct e; cbn [app queried]; rewrite IH; reflexivity.
Qed.

Lemma stores_app (a b : list Event) : stores (a ++ b) = stores a ++ stores b.
Proof.
  induction a as [| e a IH]; [reflexivity |].
  destruct e; cbn [app stores]; rewrite IH; reflexivity.
Qed.

(** ** The exchange, the getters and the sweep under a timing bound

    [slack] bounds the time one poll of the controller takes; the only
    thing asked of it is that a pass of the polling loop cannot carry
    the elapsed time around the 32-bit counter. *)

Section Timing.

Variable slack : Z.
Hypothesis slack_fits : CAN_TIMEOUT + 5 + slack <= ULONG_MOD.

Lemma await_runs (pid : Z) :
  forall n fuel w s,
    paced slack w ->
    0 <= clock w - s < CAN_TIMEOUT + 5 + slack ->
    CAN_TIMEOUT - (clock w - s) <= 5 * Z.of_nat n ->
    (n < fuel)%nat ->
    exists r w',
      awaitResponse fuel pid (s mod ULONG_MOD) w = Done r w'
      /\ wait_result pid slack s w r w'.
Proof.
  pose proof slack_fits as Hslack. unfold CAN_TIMEOUT in *.
  assert (Expired : forall w s, 100 <= clock w - s < 100 + 5 + slack ->
            wait_result pid slack s w None w).
  { intros w s He. unfold wait_result, CAN_TIMEOUT.
    do 5 (split; [reflexivity || lia |]).
    split; [exact He | intros k Hk; lia]. }
  induction n as [| n IH]; intros fuel w s Hp He Hn Hfuel;
    (destruct fuel as [| fuel]; [lia |]);
    rewrite await_step, ulong_sub_mod, Z.mod_small by lia;
    unfold CAN_TIMEOUT;
    destruct (Z.ltb_spec (clock w - s) 100) as [Hlt | Hge].
  - lia.
  - exists None, w. split; [reflexivity | apply Expired; lia].
  - pose proof (Hp (polls w)) as Hb.
    destruct (heard pid (bus w (polls w))) as [d |] eqn:Hh.
    + exists (Some d), (after_poll w). split; [reflexivity |].
      unfold wait_result, after_poll, CAN_TIMEOUT.
      cbn [clock bus polls lastRequestTime trace].
      do 5 (split; [reflexivity || lia |]).
      exists (polls w).
      split; [lia |]. split; [reflexivity |]. split; [exact Hh |].
      split; [intros j Hj; lia | lia].
    + destruct (IH fuel (after_pass w) s) as (r & w' & Hrun & Hres).
      * exact Hp.
      * cbn [after_pass clock]. lia.
      * cbn [after_pass clock]. lia.
      * lia.
      * exists r, w'. split; [exact Hrun |].
        unfold wait_result in *. cbn [after_pass clock bus polls lastRequestTime trace] in Hres.
        destruct Hres as (H1 & H2 & H3 & H4 & H5 & H6).
        do 5 (split; [assumption || lia |]).
        destruct r as [d |].
        -- destruct H6 as (k & Hk1 & Hk2 & Hk3 & Hk4 & Hk5).
           exists k.
           split; [lia |]. split; [exact Hk2 |]. split; [exact Hk3 |].
           split; [| exact Hk5].
           intros j Hj. destruct (Nat.eq_dec j (polls w)) as [-> | Hne];
             [exact Hh | apply Hk4; lia].
        -- destruct H6 as (Hc & Hq). split; [exact Hc |].
           intros k Hk. destruct (Nat.eq_dec k (polls w)) as [-> | Hne];
             [exact Hh | apply Hq; lia].
  - exists None, w. split; [reflexivity | apply Expired; lia].
Qed.

(** Twenty-one tests of the loop condition are always enough. *)
Lemma read_runs (pid : Z) (fuel : nat) (w : World) :
  paced slack w ->
  (20 < fuel)%nat ->
  exists r w',
    readOBDResponse fuel pid w = Done r w'
    /\ wait_result pid slack (clock w) w r w'.
Proof.
  intros Hp Hfuel. rewrite read_is_await.
  assert (0 <= slack) by (specialize (Hp 0%nat); lia).
  pose proof slack_fits.
  apply (await_runs pid 20); unfold CAN_TIMEOUT in *; try assumption; lia.
Qed.

(** C5.  On a bus that never has a frame, the exchange answers [false]
    (timeout), no earlier than 100 ms after its start time and earlier
    than 100 ms plus one pass of the idle loop (the 5 ms delay and the
    time of one poll, at most [slack]). *)
Theorem C5_timeout_on_silent_bus (pid : Z) (fuel : nat) (w : World) :
  paced slack w ->
  (forall k, arrival (bus w k) = None) ->
  (20 < fuel)%nat ->
  exists w',
    readOBDResponse fuel pid w = Done None w'
    /\ CAN_TIMEOUT <= clock w' - clock w
    /\ clock w' - clock w < CAN_TIMEOUT + (5 + slack).
Proof.
  intros Hp Hsilent Hfuel.
  destruct (read_runs pid fuel w Hp Hfuel) as (r & w' & Hrun & Hres).
  destruct Hres as (_ & _ & _ & _ & _ & Hr).
  destruct r as [d |].
  - destruct Hr as (k & _ & _ & Hh & _). unfold heard in Hh.
    rewrite Hsilent in Hh. discriminate.
  - exists w'. split; [exact Hrun | lia].
Qed.

(** C8.  A frame that fails the matching check is dropped and the wait
    goes on as if no frame had been there: the run on the bus with the
    non-matching frames erased is the same run.  The window is the one
    that began at the start time: [false] comes between 100 ms and
    100 ms plus one pass after it whatever the traffic, and [true] comes
    only with the first matching frame, asked for before the deadline. *)
Theorem C8_non_matching_traffic_ignored (pid : Z) (fuel : nat) (w : World) :
  paced slack w ->
  (20 < fuel)%nat ->
  readOBDResponse fuel pid (on_bus (mute pid) w)
    = in_world (on_bus (mute pid)) (readOBDResponse fuel pid w)
  /\ exists r w',
       readOBDResponse fuel pid w = Done r w'
       /\ match r with
          | None =>
              CAN_TIMEOUT <= clock w' - clock w < CAN_TIMEOUT + 5 + slack
              /\ forall k, (polls w <= k < polls w')%nat ->
                   heard pid (bus w k) = None
          | Some d =>
              exists k, (polls w <= k)%nat /\ polls w' = S k
                /\ heard pid (bus w k) = Some d
                /\ (forall j, (polls w <= j < k)%nat ->
                      heard pid (bus w j) = None)
                /\ clock w' - clock w < CAN_TIMEOUT + slack
          end.
Proof.
  intros Hp Hfuel. split.
  - rewrite !read_is_await.
    apply (await_on_bus (mute pid) pid (clock w mod ULONG_MOD) (mute_same pid)).
  - destruct (read_runs pid fuel w Hp Hfuel) as (r & w' & Hrun & Hres).
    exists r, w'. split; [exact Hrun |].
    destruct Hres as (_ & _ & _ & _ & _ & Hr). exact Hr.
Qed.

(** A getter ends; it sends its one request, and touches neither the
    bus script nor [lastRequestTime]. *)
Lemma sat_query (pid : Z) (decode : list Z -> Z) (sentinel : Z)
    (fuel : nat) (w : World) (Q : Z -> World -> Prop) :
  paced slack w ->
  (20 < fuel)%nat ->
  (forall v w',
      bus w' = bus w ->
      lastRequestTime w' = lastRequestTime w ->
      trace w' = trace w ++ [request_event pid] ->
      clock w <= clock w' ->
      Q v w') ->
  sat (query pid decode sentinel fuel) w Q.
Proof.
  intros Hp Hfuel HQ. unfold query.
  apply sat_bind. apply sat_emit. apply sat_bind.
  match goal with |- sat _ ?W _ => set (w1 := W) end.
  destruct (read_runs pid fuel w1 Hp Hfuel)
    as (r & w' & Hrun & Hb & Hl & Ht & _ & Hc & _).
  exists r, w'. split; [exact Hrun |].
  destruct r; apply sat_ret; apply HQ; assumption.
Qed.

(** One step of a walk through a program of [emit]s, clock operations
    and branches on values. *)
Ltac walk_step :=
  cbv beta; cbn [clock bus polls lastRequestTime trace];
  lazymatch goal with
  | |- sat (bind _ _) _ _ => apply sat_bind
  | |- sat (ret _) _ _ => apply sat_ret
  | |- sat (emit _) _ _ => apply sat_emit
  | |- sat (delay _) _ _ => apply sat_delay
  | |- sat millis _ _ => apply sat_millis
  | |- sat get_lastRequestTime _ _ => apply sat_get_lastRequestTime
  | |- sat (set_lastRequestTime _) _ _ => apply sat_set_lastRequestTime
  | |- sat (if ?c then _ else _) _ _ => destruct c
  end.

(** Walk up to the next getter, enter it, and name what it leaves. *)
Ltac walk_query Hp Hfuel v u :=
  repeat walk_step;
  let Hb := fresh "Hbus" in
  let Hl := fresh "Hlast" in
  let Ht := fresh "Htrace" in
  let Hc := fresh "Hclock" in
  (eapply sat_query;
     [ unfold paced in *; cbn [bus]; repeat
         match goal with H : bus _ = _ |- _ => rewrite H end; exact Hp
     | exact Hfuel
     | cbn [clock bus polls lastRequestTime trace];
       intros v u Hb Hl Ht Hc;
       repeat match goal with
              | H : bus ?x = _, H' : context [bus ?x] |- _ => rewrite H in H'
              | H : trace ?x = _, H' : context [trace ?x] |- _ => rewrite H in H'
              | H : lastRequestTime ?x = _, H' : context [lastRequestTime ?x] |- _ =>
                  rewrite H in H'
              end ]).

Lemma loop_runs (fuel : nat) (w : World) :
  paced slack w ->
  (20 < fuel)%nat ->
  sat (loop fuel) w (fun _ w' => loop_result w w').
Proof.
  intros Hp Hfuel. unfold loop, loop_result, sweep_due.
  change getEngineRPM with (query PID_ENGINE_RPM rpm_of_response (-1)).
  change getVehicleSpeed with (query PID_VEHICLE_SPEED speed_of_response (-1)).
  change getCoolantTemp with (query PID_COOLANT_TEMP coolant_of_response (-999)).
  change getThrottlePosition
    with (query PID_THROTTLE_POSITION throttle_of_response (-1)).
  change getEngineLoad with (query PID_ENGINE_LOAD load_of_response (-1)).
  do 4 walk_step.
  destruct (OBD_REQUEST_INTERVAL <=?
              ulong_sub (clock w mod ULONG_MOD) (lastRequestTime w)).
  2: { repeat walk_step. cbn [bus lastRequestTime trace]. auto. }
  walk_query Hp Hfuel v1 u1.
  all: walk_query Hp Hfuel v2 u2.
  all: walk_query Hp Hfuel v3 u3.
  all: walk_query Hp Hfuel v4 u4.
  all: walk_query Hp Hfuel v5 u5.
  all: repeat walk_step.
  all: cbn [bus lastRequestTime trace].
  all: repeat match goal with
              | H : bus _ = _ |- _ => rewrite H
              | H : lastRequestTime _ = _ |- _ => rewrite H
              | H : trace _ = _ |- _ => rewrite H
              end.
  all: split; [reflexivity |]; split; [reflexivity |].
  all: rewrite <- !app_assoc; cbn [app].
  all: eexists; split; [reflexivity |]; split; reflexivity.
Qed.

(** C7.  A call of [loop] either asks for nothing (no sweep is due) or
    asks for the five PIDs once each in the order RPM, speed, coolant,
    throttle, load, whatever the bus delivers to the five exchanges. *)
Theorem C7_sweep_order_is_fixed (fuel : nat) (w : World) :
  paced slack w ->
  (20 < fuel)%nat ->
  exists w' evs,
    loop fuel w = Done tt w'
    /\ trace w' = trace w ++ evs
    /\ queried evs =
         if sweep_due w then
           [PID_ENGINE_RPM; PID_VEHICLE_SPEED; PID_COOLANT_TEMP;
            PID_THROTTLE_POSITION; PID_ENGINE_LOAD]
         else [].
Proof.
  intros Hp Hfuel.
  destruct (loop_runs fuel w Hp Hfuel) as ([] & w' & Hrun & _ & Hres).
  destruct (sweep_due w).
  - destruct Hres as (_ & rest & Ht & _ & Hq).
    exists w', (StoreLastRequestTime (clock w mod ULONG_MOD) :: rest).
    split; [exact Hrun |]. split; [exact Ht | exact Hq].
  - destruct Hres as (_ & Ht).
    exists w', []. split; [exact Hrun |].
    split; [rewrite app_nil_r; exact Ht | reflexivity].
Qed.

Lemma query_untouched (pid : Z) (decode : list Z -> Z) (sentinel : Z)
    (fuel : nat) (w : World) :
  paced slack w ->
  (20 < fuel)%nat ->
  sat (query pid decode sentinel fuel) w (untouched w).
Proof.
  intros Hp Hfuel.
  apply (sat_query pid decode sentinel fuel w _ Hp Hfuel).
  intros v w' _ Hl Ht _. split; [exact Hl |].
  rewrite Ht, stores_app. cbn [stores request_event]. apply app_nil_r.
Qed.

(** C9 (amended).  [lastRequestTime] is 0 at power-up.  [setup], the
    request, the exchange and the five getters leave it alone.  [loop]
    alone writes it: not at all when no sweep is due, and otherwise
    once, as the first effect of the sweep, before the first request,
    with the time read on entry to [loop]. *)
Theorem C9_polling_clock_set_at_sweep_start (fuel : nat) (w : World) :
  paced slack w ->
  (20 < fuel)%nat ->
  (forall b, lastRequestTime (power_on b) = 0)
  /\ sat (setup fuel true) w (untouched w)
  /\ (forall pid, sat (sendOBDRequest pid) w (untouched w))
  /\ (forall pid, sat (readOBDResponse fuel pid) w (untouched w))
  /\ sat (getEngineRPM fuel) w (untouched w)
  /\ sat (getVehicleSpeed fuel) w (untouched w)
  /\ sat (getCoolantTemp fuel) w (untouched w)
  /\ sat (getThrottlePosition fuel) w (untouched w)
  /\ sat (getEngineLoad fuel) w (untouched w)
  /\ sat (loop fuel) w (fun _ w' =>
       if sweep_due w then
         lastRequestTime w' = clock w mod ULONG_MOD
         /\ exists rest,
              trace w' = trace w ++ StoreLastRequestTime (clock w mod ULONG_MOD) :: rest
              /\ stores rest = []
              /\ queried rest =
                   [PID_ENGINE_RPM; PID_VEHICLE_SPEED; PID_COOLANT_TEMP;
                    PID_THROTTLE_POSITION; PID_ENGINE_LOAD]
       else lastRequestTime w' = lastRequestTime w /\ trace w' = trace w).
Proof.
  intros Hp Hfuel.
  split; [reflexivity |].
  split.
  { unfold setup. cbv iota. repeat walk_step. unfold untouched.
    cbn [lastRequestTime trace]. split; [reflexivity |].
    rewrite !stores_app. cbn [stores]. rewrite !app_nil_r. reflexivity. }
  split.
  { intros pid. unfold sendOBDRequest. walk_step. unfold untouched.
    cbn [lastRequestTime trace]. split; [reflexivity |].
    rewrite stores_app. cbn [stores]. apply app_nil_r. }
  split.
  { intros pid.
    destruct (read_runs pid fuel w Hp Hfuel)
      as (r & w' & Hrun & _ & Hl & Ht & _).
    exists r, w'. split; [exact Hrun |]. unfold untouched.
    rewrite Hl, Ht. split; reflexivity. }
  do 5 (split; [apply query_untouched; assumption |]).
  destruct (loop_runs fuel w Hp Hfuel) as ([] & w' & Hrun & _ & Hres).
  exists tt, w'. split; [exact Hrun | exact Hres].
Qed.

(** ** What the getters return *)

Lemma heard_frame (pid : Z) (p : Poll) (d : list Z) :
  heard pid p = Some d ->
  exists fr, arrival p = Some fr /\ isMatchingResponse fr pid = true
             /\ d = extractData fr.
Proof.
  unfold heard. destruct (arrival p) as [fr |]; [| discriminate].
  destruct (isMatchingResponse fr pid) eqn:E; [| discriminate].
  intros H. exists fr. inversion H. auto.
Qed.

(** A getter's value is read off what its exchange returned; a
    returned response is the data of a matching frame of the bus. *)
Lemma getter_result (pid : Z) (decode : list Z -> Z) (sentinel : Z)
    (fuel : nat) (w : World) :
  paced slack w ->
  (20 < fuel)%nat ->
  exists r w',
    readOBDResponse fuel pid (requested pid w) = Done r w'
    /\ match r with
       | None => query pid decode sentinel fuel w = Done sentinel w'
       | Some d =>
           query pid decode sentinel fuel w = Done (decode d) w'
           /\ exists k fr, arrival (bus w k) = Some fr
                /\ isMatchingResponse fr pid = true /\ d = extractData fr
       end.
Proof.
  intros Hp Hfuel.
  destruct (read_runs pid fuel (requested pid w) Hp Hfuel)
    as (r & w' & Hrun & _ & _ & _ & _ & _ & Hr).
  exists r, w'. split; [exact Hrun |].
  assert (Hq : query pid decode sentinel fuel w
                = match r with
                  | Some d => Done (decode d) w'
                  | None => Done sentinel w'
                  end).
  { unfold query, sendOBDRequest, bind at 1. cbn [emit].
    change {| clock := clock w; bus := bus w; polls := polls w;
              lastRequestTime := lastRequestTime w;
              trace := trace w ++ [CanSend OBD_REQUEST_ID 0 8
                         [0x02; 0x01; pid; 0x00; 0x00; 0x00; 0x00; 0x00]] |}
      with (requested pid w).
    unfold bind. rewrite Hrun. destruct r; reflexivity. }
  destruct r as [d |]; [| exact Hq].
  split; [exact Hq |].
  destruct Hr as (k & _ & _ & Hh & _).
  destruct (heard_frame _ _ _ Hh) as (fr & Ha & Hm & Hd).
  exists k, fr. cbn [requested bus] in Ha. auto.
Qed.

(** X1.  [getVehicleSpeed] returns -1 exactly when its exchange timed
    out; otherwise it returns data byte 0 of the response, a value in
    0..255. *)
Theorem X1_speed_or_sentinel (fuel : nat) (w : World) :
  paced slack w ->
  byte_frames w ->
  (20 < fuel)%nat ->
  exists r w',
    readOBDResponse fuel PID_VEHICLE_SPEED (requested PID_VEHICLE_SPEED w)
      = Done r w'
    /\ match r with
       | None => getVehicleSpeed fuel w = Done (-1) w'
       | Some d =>
           getVehicleSpeed fuel w = Done (at5 d 0) w' /\ 0 <= at5 d 0 <= 255
       end.
Proof.
  intros Hp Hbytes Hfuel.
  destruct (getter_result PID_VEHICLE_SPEED speed_of_response (-1) fuel w Hp Hfuel)
    as (r & w' & Hrun & Hr).
  exists r, w'. split; [exact Hrun |].
  destruct r as [d |]; [| exact Hr].
  destruct Hr as (Hq & k & fr & Ha & _ & ->).
  destruct (Hbytes k fr Ha) as [H3 _].
  destruct (small_decoders_exact (c3 (buf fr)) (c4 (buf fr)) (c5 (buf fr))
              (c6 (buf fr)) (c7 (buf fr)) H3) as ((E & _) & _).
  change (getVehicleSpeed fuel w)
    with (query PID_VEHICLE_SPEED speed_of_response (-1) fuel w).
  unfold extractData in *. cbv zeta in *. rewrite Hq, E.
  unfold is_byte, at5 in *. cbn [nth]. split; [reflexivity | lia].
Qed.

(** X2.  [getCoolantTemp] returns -999 exactly when its exchange timed
    out; otherwise it returns data byte 0 minus 40, a value in
    -40..215. *)
Theorem X2_coolant_or_sentinel (fuel : nat) (w : World) :
  paced slack w ->
  byte_frames w ->
  (20 < fuel)%nat ->
  exists r w',
    readOBDResponse fuel PID_COOLANT_TEMP (requested PID_COOLANT_TEMP w)
      = Done r w'
    /\ match r with
       | None => getCoolantTemp fuel w = Done (-999) w'
       | Some d =>
           getCoolantTemp fuel w = Done (at5 d 0 - 40) w'
           /\ -40 <= at5 d 0 - 40 <= 215
       end.
Proof.
  intros Hp Hbytes Hfuel.
  destruct (getter_result PID_COOLANT_TEMP coolant_of_response (-999) fuel w Hp Hfuel)
    as (r & w' & Hrun & Hr).
  exists r, w'. split; [exact Hrun |].
  destruct r as [d |]; [| exact Hr].
  destruct Hr as (Hq & k & fr & Ha & _ & ->).
  destruct (Hbytes k fr Ha) as [H3 _].
  destruct (small_decoders_exact (c3 (buf fr)) (c4 (buf fr)) (c5 (buf fr))
              (c6 (buf fr)) (c7 (buf fr)) H3) as (_ & (E & _) & _).
  change (getCoolantTemp fuel w)
    with (query PID_COOLANT_TEMP coolant_of_response (-999) fuel w).
  unfold extractData in *. cbv zeta in *. rewrite Hq, E.
  unfold is_byte, at5 in *. cbn [nth]. split; [reflexivity | lia].
Qed.

(** X3.  [getThrottlePosition] and [getEngineLoad] return -1 exactly
    when their exchange timed out; otherwise they return
    (data byte 0 * 100) / 255 rounded down, a value in 0..100. *)
Theorem X3_percent_or_sentinel (fuel : nat) (w : World) :
  paced slack w ->
  byte_frames w ->
  (20 < fuel)%nat ->
  (exists r w',
     readOBDResponse fuel PID_THROTTLE_POSITION
         (requested PID_THROTTLE_POSITION w) = Done r w'
     /\ match r with
        | None => getThrottlePosition fuel w = Done (-1) w'
        | Some d =>
            getThrottlePosition fuel w = Done ((at5 d 0 * 100) / 255) w'
            /\ 0 <= (at5 d 0 * 100) / 255 <= 100
        end)
  /\ (exists r w',
        readOBDResponse fuel PID_ENGINE_LOAD (requested PID_ENGINE_LOAD w)
          = Done r w'
        /\ match r with
           | None => getEngineLoad fuel w = Done (-1) w'
           | Some d =>
               getEngineLoad fuel w = Done ((at5 d 0 * 100) / 255) w'
               /\ 0 <= (at5 d 0 * 100) / 255 <= 100
           end).
Proof.
  intros Hp Hbytes Hfuel. split.
  - destruct (getter_result PID_THROTTLE_POSITION throttle_of_response (-1)
                fuel w Hp Hfuel) as (r & w' & Hrun & Hr).
    exists r, w'. split; [exact Hrun |].
    destruct r as [d |]; [| exact Hr].
    destruct Hr as (Hq & k & fr & Ha & _ & ->).
    destruct (Hbytes k fr Ha) as [H3 _].
    destruct (small_decoders_exact (c3 (buf fr)) (c4 (buf fr)) (c5 (buf fr))
                (c6 (buf fr)) (c7 (buf fr)) H3) as (_ & _ & (E & R) & _).
    change (getThrottlePosition fuel w)
      with (query PID_THROTTLE_POSITION throttle_of_response (-1) fuel w).
    unfold extractData in *. cbv zeta in *. rewrite Hq, E in *.
    unfold at5. cbn [nth]. split; [reflexivity | exact R].
  - destruct (getter_result PID_ENGINE_LOAD load_of_response (-1)
                fuel w Hp Hfuel) as (r & w' & Hrun & Hr).
    exists r, w'. split; [exact Hrun |].
    destruct r as [d |]; [| exact Hr].
    destruct Hr as (Hq & k & fr & Ha & _ & ->).
    destruct (Hbytes k fr Ha) as [H3 _].
    destruct (small_decoders_exact (c3 (buf fr)) (c4 (buf fr)) (c5 (buf fr))
                (c6 (buf fr)) (c7 (buf fr)) H3) as (_ & _ & _ & (E & R)).
    change (getEngineLoad fuel w)
      with (query PID_ENGINE_LOAD load_of_response (-1) fuel w).
    unfold extractData in *. cbv zeta in *. rewrite Hq, E in *.
    unfold at5. cbn [nth]. split; [reflexivity | exact R].
Qed.

(** X4.  [getEngineRPM] returns -1 when its exchange timed out.  On a
    response it returns a value in -8192..8191; when data byte 0 is
    below 0x80 that value is (byte 0 * 256 + byte 1) / 4, in 0..8191. *)
Theorem X4_rpm_getter_range (fuel : nat) (w : World) :
  paced slack w ->
  byte_frames w ->
  (20 < fuel)%nat ->
  exists r w',
    readOBDResponse fuel PID_ENGINE_RPM (requested PID_ENGINE_RPM w)
      = Done r w'
    /\ match r with
       | None => getEngineRPM fuel w = Done (-1) w'
       | Some d =>
           exists v,
             getEngineRPM fuel w = Done v w'
             /\ -8192 <= v <= 8191
             /\ (at5 d 0 < 128 ->
                 v = (at5 d 0 * 256 + at5 d 1) / 4 /\ 0 <= v)
       end.
Proof.
  intros Hp Hbytes Hfuel.
  destruct (getter_result PID_ENGINE_RPM rpm_of_response (-1) fuel w Hp Hfuel)
    as (r & w' & Hrun & Hr).
  exists r, w'. split; [exact Hrun |].
  destruct r as [d |]; [| exact Hr].
  destruct Hr as (Hq & k & fr & Ha & _ & ->).
  destruct (Hbytes k fr Ha) as [H3 H4].
  exists (rpm_of_response (extractData fr)). split; [exact Hq |].
  unfold extractData. cbv zeta. unfold at5 at 1 2 3. cbn [nth].
  destruct (Z.lt_ge_cases (c3 (buf fr)) 128) as [Hlow | Hhigh].
  - destruct (rpm_of_response_low _ _ (c5 (buf fr)) (c6 (buf fr)) (c7 (buf fr))
                H3 H4 Hlow) as [E R].
    split; [lia |]. intros _. split; [exact E | lia].
  - destruct (rpm_of_response_high _ _ (c5 (buf fr)) (c6 (buf fr)) (c7 (buf fr))
                H3 H4 Hhigh) as (_ & R & _).
    split; [lia |]. intros Hc. lia.
Qed.

(** ** What an exchange costs *)

Lemma await_polls (pid : Z) :
  forall fuel n w s r w',
    paced slack w ->
    0 <= clock w - s < CAN_TIMEOUT + 5 + slack ->
    CAN_TIMEOUT - (clock w - s) <= 5 * Z.of_nat n ->
    awaitResponse fuel pid (s mod ULONG_MOD) w = Done r w' ->
    (polls w' <= polls w + n)%nat.
Proof.
  pose proof slack_fits as Hslack. unfold CAN_TIMEOUT in *.
  induction fuel as [| fuel IH]; intros n w s r w' Hp He Hn Hrun.
  - discriminate Hrun.
  - rewrite await_step, ulong_sub_mod, Z.mod_small in Hrun by lia.
    unfold CAN_TIMEOUT in Hrun.
    destruct (Z.ltb_spec (clock w - s) 100) as [Hlt | Hge].
    + pose proof (Hp (polls w)) as Hb.
      destruct (heard pid (bus w (polls w))) as [d |].
      * inversion Hrun. cbn [after_poll polls]. lia.
      * destruct n as [| n]; [lia |].
        apply (IH n) in Hrun.
        -- cbn [after_pass polls] in Hrun. lia.
        -- exact Hp.
        -- cbn [after_pass clock]. lia.
        -- cbn [after_pass clock]. lia.
    + inversion Hrun. lia.
Qed.

(** X7.  Whatever arrives on the bus, an exchange takes at most 20
    frames off the controller and lasts less than the timeout plus one
    pass of its loop; it sends nothing and prints nothing. *)
Theorem X7_exchange_budget (pid : Z) (fuel : nat) (w : World) :
  paced slack w ->
  (20 < fuel)%nat ->
  exists r w',
    readOBDResponse fuel pid w = Done r w'
    /\ (polls w <= polls w' <= polls w + 20)%nat
    /\ 0 <= clock w' - clock w < CAN_TIMEOUT + 5 + slack
    /\ trace w' = trace w.
Proof.
  intros Hp Hfuel.
  destruct (read_runs pid fuel w Hp Hfuel)
    as (r & w' & Hrun & _ & _ & Ht & Hpolls & Hclock & Hr).
  exists r, w'. split; [exact Hrun |].
  assert (0 <= slack) by (specialize (Hp 0%nat); lia).
  split; [split; [exact Hpolls |] |].
  - rewrite read_is_await in Hrun.
    apply (await_polls pid fuel 20 w (clock w) r w' Hp); unfold CAN_TIMEOUT; try lia.
    exact Hrun.
  - split; [| exact Ht]. unfold CAN_TIMEOUT in *.
    destruct r as [d |].
    + destruct Hr as (k & _ & _ & _ & _ & Hc). lia.
    + destruct Hr as [Hc _]. lia.
Qed.

(** A getter ends within the same time. *)
Lemma sat_query_timed (pid : Z) (decode : list Z -> Z) (sentinel : Z)
    (fuel : nat) (w : World) (Q : Z -> World -> Prop) :
  paced slack w ->
  (20 < fuel)%nat ->
  (forall v w',
      bus w' = bus w ->
      (polls w <= polls w' <= polls w + 20)%nat ->
      0 <= clock w' - clock w < CAN_TIMEOUT + 5 + slack ->
      Q v w') ->
  sat (query pid decode sentinel fuel) w Q.
Proof.
  intros Hp Hfuel HQ. unfold query.
  apply sat_bind. apply sat_emit. apply sat_bind.
  match goal with |- sat _ ?W _ => set (w1 := W) end.
  destruct (read_runs pid fuel w1 Hp Hfuel)
    as (r & w' & Hrun & Hb & _ & _ & Hpolls & Hclock & Hr).
  assert (0 <= slack) by (specialize (Hp 0%nat); lia).
  assert (Hn : (polls w' <= polls w1 + 20)%nat).
  { rewrite read_is_await in Hrun.
    apply (await_polls pid fuel 20 w1 (clock w1) r w' Hp);
      unfold CAN_TIMEOUT; try lia. exact Hrun. }
  assert (Hd : 0 <= clock w' - clock w1 < CAN_TIMEOUT + 5 + slack).
  { unfold CAN_TIMEOUT in *. destruct r as [d |].
    - destruct Hr as (k & _ & _ & _ & _ & Hc). lia.
    - destruct Hr as [Hc _]. lia. }
  exists r, w'. split; [exact Hrun |].
  destruct r; apply sat_ret; apply HQ; try assumption; split; assumption.
Qed.

(** ** What a call of [loop] costs, and how calls follow each other *)

Lemma sat_conseq {A : Type} (m : M A) (w : World) (P Q : A -> World -> Prop) :
  sat m w P -> (forall a w', P a w' -> Q a w') -> sat m w Q.
Proof.
  intros (a & w' & Hm & HP) H. exists a, w'. split; [exact Hm | apply H; exact HP].
Qed.

Lemma sat_and {A : Type} (m : M A) (w : World) (P Q : A -> World -> Prop) :
  sat m w P -> sat m w Q -> sat m w (fun a w' => P a w' /\ Q a w').
Proof.
  intros (a & w' & Hm & HP) (a0 & w0 & Hm0 & HQ).
  rewrite Hm in Hm0. inversion Hm0. subst a0 w0.
  exists a, w'. auto.
Qed.

(** Walk up to the next getter and enter it, keeping its cost. *)
Ltac walk_timed Hp Hfuel v u :=
  repeat walk_step;
  let Hb := fresh "Hbus" in
  let Hn := fresh "Hpolls" in
  let Hd := fresh "Hdur" in
  (eapply sat_query_timed;
     [ unfold paced in *; cbn [bus]; repeat
         match goal with H : bus _ = _ |- _ => rewrite H end; exact Hp
     | exact Hfuel
     | cbn [clock bus polls lastRequestTime trace];
       intros v u Hb Hn Hd;
       repeat match goal with
              | H : bus ?x = _, H' : context [bus ?x] |- _ => rewrite H in H'
              end ]).

Lemma loop_timed (fuel : nat) (w : World) :
  paced slack w ->
  (20 < fuel)%nat ->
  sat (loop fuel) w (fun _ w' =>
    if sweep_due w then
      10 <= clock w' - clock w < 5 * (CAN_TIMEOUT + 5 + slack) + 10
      /\ (polls w <= polls w' <= polls w + 100)%nat
    else clock w' = clock w + 10 /\ polls w' = polls w).
Proof.
  intros Hp Hfuel. unfold loop, sweep_due.
  change getEngineRPM with (query PID_ENGINE_RPM rpm_of_response (-1)).
  change getVehicleSpeed with (query PID_VEHICLE_SPEED speed_of_response (-1)).
  change getCoolantTemp with (query PID_COOLANT_TEMP coolant_of_response (-999)).
  change getThrottlePosition
    with (query PID_THROTTLE_POSITION throttle_of_response (-1)).
  change getEngineLoad with (query PID_ENGINE_LOAD load_of_response (-1)).
  do 4 walk_step.
  destruct (OBD_REQUEST_INTERVAL <=?
              ulong_sub (clock w mod ULONG_MOD) (lastRequestTime w)).
  2: { repeat walk_step. cbn [clock polls]. auto. }
  walk_timed Hp Hfuel v1 u1.
  all: walk_timed Hp Hfuel v2 u2.
  all: walk_timed Hp Hfuel v3 u3.
  all: walk_timed Hp Hfuel v4 u4.
  all: walk_timed Hp Hfuel v5 u5.
  all: repeat walk_step.
  all: cbn [clock polls].
  all: unfold CAN_TIMEOUT in *; lia.
Qed.

(** X8.  A call of [loop] with no sweep due takes exactly the 10 ms of
    its delay and does nothing else.  A call that sweeps takes at least
    10 ms and less than five exchanges plus 10 ms, and takes at most
    100 frames off the controller. *)
Theorem X8_loop_cost (fuel : nat) (w : World) :
  paced slack w ->
  (20 < fuel)%nat ->
  sat (loop fuel) w (fun _ w' =>
    if sweep_due w then
      10 <= clock w' - clock w < 5 * (CAN_TIMEOUT + 5 + slack) + 10
      /\ (polls w <= polls w' <= polls w + 100)%nat
    else
      clock w' = clock w + 10 /\ polls w' = polls w
      /\ trace w' = trace w /\ lastRequestTime w' = lastRequestTime w).
Proof.
  intros Hp Hfuel.
  apply (sat_conseq _ _ _ _
           (sat_and _ _ _ _ (loop_runs fuel w Hp Hfuel) (loop_timed fuel w Hp Hfuel))).
  intros [] w' [[_ Hres] Htime].
  destruct (sweep_due w); [exact Htime |].
  destruct Hres as [Hl Ht]. destruct Htime as [Hc Hn]. auto.
Qed.

(** X9.  When polls take at most 93 ms, a call of [loop] that sweeps
    is never followed by a second sweep in the next call: over the two
    calls there is one store to [lastRequestTime] and one request per
    PID. *)
Theorem X9_no_sweep_right_after_a_sweep (fuel : nat) (w : World) :
  paced slack w ->
  slack <= 93 ->
  (20 < fuel)%nat ->
  sweep_due w = true ->
  sat (loop fuel ;; loop fuel) w (fun _ w' =>
    exists rest,
      trace w' = trace w ++ StoreLastRequestTime (clock w mod ULONG_MOD) :: rest
      /\ stores rest = []
      /\ queried rest =
           [PID_ENGINE_RPM; PID_VEHICLE_SPEED; PID_COOLANT_TEMP;
            PID_THROTTLE_POSITION; PID_ENGINE_LOAD]).
Proof.
  intros Hp H93 Hfuel Hdue.
  apply sat_bind.
  apply (sat_conseq _ _ _ _
           (sat_and _ _ _ _ (loop_runs fuel w Hp Hfuel) (loop_timed fuel w Hp Hfuel))).
  intros [] w1 [[Hbus Hres] Htime]. rewrite Hdue in *.
  destruct Hres as (Hlast & rest & Ht & Hs & Hq). destruct Htime as [Hc _].
  assert (Hp1 : paced slack w1) by (unfold paced in *; rewrite Hbus; exact Hp).
  assert (Hidle : sweep_due w1 = false).
  { unfold sweep_due. rewrite Hlast, ulong_sub_mod.
    unfold CAN_TIMEOUT, OBD_REQUEST_INTERVAL, ULONG_MOD in *.
    rewrite Z.mod_small by lia. apply Z.leb_gt. lia. }
  apply (sat_conseq _ _ _ _ (loop_runs fuel w1 Hp1 Hfuel)).
  intros [] w2 [_ Hres2]. rewrite Hidle in Hres2. destruct Hres2 as [_ Ht2].
  exists rest. rewrite Ht2. auto.
Qed.

(** X10.  After power-up and a successful [setup], the first call of
    [loop] sweeps: [setup] takes its 1000 ms, [lastRequestTime] is
    still 0, and the call stores 1000 and sends the five requests. *)
Theorem X10_first_loop_sweeps (fuel : nat) (b : nat -> Poll) :
  (forall k, 0 <= busy (b k) <= slack) ->
  (20 < fuel)%nat ->
  sat (setup fuel true ;; loop fuel) (power_on b) (fun _ w' =>
    lastRequestTime w' = 1000
    /\ stores (trace w') = [1000]
    /\ queried (trace w') =
         [PID_ENGINE_RPM; PID_VEHICLE_SPEED; PID_COOLANT_TEMP;
          PID_THROTTLE_POSITION; PID_ENGINE_LOAD]).
Proof.
  intros Hp Hfuel. apply sat_bind. unfold setup. cbv iota.
  repeat walk_step. cbv beta.
  match goal with |- sat _ ?W _ => set (w1 := W) end.
  assert (Hp1 : paced slack w1) by exact Hp.
  apply (sat_conseq _ _ _ _ (loop_runs fuel w1 Hp1 Hfuel)).
  intros [] w' [_ Hres].
  change (sweep_due w1) with true in Hres.
  destruct Hres as (Hlast & rest & Ht & Hs & Hq).
  split; [exact Hlast |].
  rewrite Ht, stores_app, queried_app. cbn [stores queried app].
  rewrite Hs, Hq. split; reflexivity.
Qed.

Lemma halt_never_ends : forall fuel w, halt fuel w = OutOfFuel.
Proof.
  induction fuel as [| fuel IH]; intros w; [reflexivity |].
  cbn [halt]. unfold bind. cbn [delay]. apply IH.
Qed.

(** X11.  When [CAN.begin] fails, [setup] never returns, however long
    it is run.  When it succeeds, [setup] returns after exactly
    1000 ms, having sent no request and asked the controller for no
    frame. *)
Theorem X11_setup_returns_iff_can_ok (fuel : nat) (w : World) :
  (forall n, setup n false w = OutOfFuel)
  /\ sat (setup fuel true) w (fun _ w' =>
       clock w' = clock w + 1000 /\ polls w' = polls w
       /\ queried (trace w') = queried (trace w)).
Proof.
  split.
  - intros n. unfold setup, bind. cbn [emit]. rewrite halt_never_ends. reflexivity.
  - unfold setup. cbv iota. repeat walk_step.
    cbn [clock polls trace]. split; [reflexivity |]. split; [reflexivity |].
    rewrite !queried_app. cbn [queried]. rewrite !app_nil_r. reflexivity.
Qed.

(** X12.  The test of [loop] measures the time since the last store
    also across the wrap of the 32-bit counter: if the store was made
    at time [t0] and less than 2^32 ms have passed, [loop] sweeps
    exactly when at least 1000 ms have passed. *)
Theorem X12_due_test_survives_rollover (fuel : nat) (w : World) (t0 : Z) :
  paced slack w ->
  (20 < fuel)%nat ->
  lastRequestTime w = t0 mod ULONG_MOD ->
  0 <= clock w - t0 < ULONG_MOD ->
  exists w' evs,
    loop fuel w = Done tt w'
    /\ trace w' = trace w ++ evs
    /\ queried evs =
         if OBD_REQUEST_INTERVAL <=? clock w - t0 then
           [PID_ENGINE_RPM; PID_VEHICLE_SPEED; PID_COOLANT_TEMP;
            PID_THROTTLE_POSITION; PID_ENGINE_LOAD]
         else [].
Proof.
  intros Hp Hfuel Hlast Hel.
  destruct (loop_runs fuel w Hp Hfuel) as ([] & w' & Hrun & _ & Hres).
  assert (Hdue : sweep_due w = (OBD_REQUEST_INTERVAL <=? clock w - t0)).
  { unfold sweep_due. rewrite Hlast, ulong_sub_mod, Z.mod_small by exact Hel.
    reflexivity. }
  rewrite Hdue in Hres.
  destruct (OBD_REQUEST_INTERVAL <=? clock w - t0).
  - destruct Hres as (_ & rest & Ht & _ & Hq).
    exists w', (StoreLastRequestTime (clock w mod ULONG_MOD) :: rest).
    split; [exact Hrun |]. split; [exact Ht | exact Hq].
  - destruct Hres as (_ & Ht).
    exists w', []. split; [exact Hrun |].
    split; [rewrite app_nil_r; exact Ht | reflexivity].
Qed.

(** X13.  A sweep prints seven lines: the header, then for each PID in
    the order RPM, speed, coolant, throttle, load either the line that
    ends its value or its READ FAILED line, never both and never
    neither, then an empty line. *)
Theorem X13_one_report_per_pid (fuel : nat) (w : World) :
  paced slack w ->
  (20 < fuel)%nat ->
  sweep_due w = true ->
  sat (loop fuel) w (fun _ w' =>
    exists evs (l1 l2 l3 l4 l5 : string),
      trace w' = trace w ++ evs
      /\ printed_lines evs
         = ["--- Reading OBD-II Data ---"; l1; l2; l3; l4; l5; ""]%string
      /\ (l1 = " RPM" \/ l1 = "Engine RPM: READ FAILED")%string
      /\ (l2 = " km/h" \/ l2 = "Vehicle Speed: READ FAILED")%string
      /\ (l3 = " °C" \/ l3 = "Coolant Temp: READ FAILED")%string
      /\ (l4 = " %" \/ l4 = "Throttle Position: READ FAILED")%string
      /\ (l5 = " %" \/ l5 = "Engine Load: READ FAILED")%string).
Proof.
  intros Hp Hfuel Hdue. unfold sweep_due in Hdue. unfold loop.
  change getEngineRPM with (query PID_ENGINE_RPM rpm_of_response (-1)).
  change getVehicleSpeed with (query PID_VEHICLE_SPEED speed_of_response (-1)).
  change getCoolantTemp with (query PID_COOLANT_TEMP coolant_of_response (-999)).
  change getThrottlePosition
    with (query PID_THROTTLE_POSITION throttle_of_response (-1)).
  change getEngineLoad with (query PID_ENGINE_LOAD load_of_response (-1)).
  do 4 walk_step. rewrite Hdue.
  walk_query Hp Hfuel v1 u1.
  all: walk_query Hp Hfuel v2 u2.
  all: walk_query Hp Hfuel v3 u3.
  all: walk_query Hp Hfuel v4 u4.
  all: walk_query Hp Hfuel v5 u5.
  all: repeat walk_step.
  all: cbn [trace].
  all: repeat match goal with H : trace _ = _ |- _ => rewrite H end.
  all: rewrite <- !app_assoc; cbn [app].
  all: eexists; do 5 eexists.
  all: split; [reflexivity |]; split; [reflexivity |].
  all: repeat split; solve [left; reflexivity | right; reflexivity].
Qed.

(** ** An answer that comes in time is delivered *)

Lemma await_hears (pid : Z) :
  forall j fuel w s d,
    paced slack w ->
    0 <= clock w - s ->
    clock w - s + (5 + slack) * Z.of_nat j < CAN_TIMEOUT ->
    (j < fuel)%nat ->
    (forall i, (i < j)%nat -> heard pid (bus w (polls w + i)) = None) ->
    heard pid (bus w (polls w + j)) = Some d ->
    exists w',
      awaitResponse fuel pid (s mod ULONG_MOD) w = Done (Some d) w'
      /\ polls w' = S (polls w + j).
Proof.
  pose proof slack_fits as Hslack. unfold CAN_TIMEOUT in *.
  induction j as [| j IH]; intros fuel w s d Hp He Hj Hfuel Hnone Hsome;
    (destruct fuel as [| fuel]; [lia |]);
    pose proof (Hp (polls w)) as Hb;
    assert (Hlt : clock w - s < 100) by nia;
    rewrite await_step, ulong_sub_mod, Z.mod_small by lia;
    unfold CAN_TIMEOUT;
    destruct (Z.ltb_spec (clock w - s) 100) as [_ | Hge]; try lia.
  - rewrite Nat.add_0_r in Hsome. rewrite Hsome.
    exists (after_poll w). split; [reflexivity |].
    cbn [after_poll polls]. lia.
  - specialize (Hnone 0%nat ltac:(lia)) as H0.
    rewrite Nat.add_0_r in H0. rewrite H0.
    destruct (IH fuel (after_pass w) s d) as (w' & Hrun & Hpolls).
    + exact Hp.
    + cbn [after_pass clock]. lia.
    + cbn [after_pass clock]. nia.
    + lia.
    + intros i Hi. cbn [after_pass bus polls].
      replace (S (polls w) + i)%nat with (polls w + S i)%nat by lia.
      apply Hnone. lia.
    + cbn [after_pass bus polls].
      replace (S (polls w) + j)%nat with (polls w + S j)%nat by lia.
      exact Hsome.
    + exists w'. split; [exact Hrun |].
      cbn [after_pass polls] in Hpolls. lia.
Qed.

(** X14.  If the first matching frame comes at the [j]-th poll of an
    exchange (counting from 0) and [j] passes of the loop fit before
    the timeout, the exchange returns the data of that frame and has
    taken exactly [j + 1] frames off the controller. *)
Theorem X14_answer_in_time_is_returned (pid : Z) (fuel j : nat) (w : World)
    (d : list Z) :
  paced slack w ->
  (5 + slack) * Z.of_nat j < CAN_TIMEOUT ->
  (j < fuel)%nat ->
  (forall i, (i < j)%nat -> heard pid (bus w (polls w + i)) = None) ->
  heard pid (bus w (polls w + j)) = Some d ->
  exists w',
    readOBDResponse fuel pid w = Done (Some d) w'
    /\ polls w' = S (polls w + j).
Proof.
  intros Hp Hj Hfuel Hnone Hsome. rewrite read_is_await.
  apply (await_hears pid j fuel w (clock w) d); try assumption; lia.
Qed.

End Timing.

(** ** Concrete runs *)

Lemma C5_timeout_on_silent_bus_witness :
  exists w',
    readOBDResponse 21 PID_ENGINE_RPM (power_on quiet_bus) = Done None w'
    /\ CAN_TIMEOUT <= clock w' - clock (power_on quiet_bus)
    /\ clock w' - clock (power_on quiet_bus) < CAN_TIMEOUT + (5 + 0).
Proof.
  apply (C5_timeout_on_silent_bus 0).
  - unfold CAN_TIMEOUT, ULONG_MOD. lia.
  - intros k. simpl. lia.
  - intros k. reflexivity.
  - lia.
Defined.

Lemma C8_non_matching_traffic_ignored_witness :
  readOBDResponse 21 PID_VEHICLE_SPEED
      (on_bus (mute PID_VEHICLE_SPEED)
         (power_on (noisy_bus PID_VEHICLE_SPEED 0x3C 0)))
    = in_world (on_bus (mute PID_VEHICLE_SPEED))
        (readOBDResponse 21 PID_VEHICLE_SPEED
           (power_on (noisy_bus PID_VEHICLE_SPEED 0x3C 0)))
  /\ value_of (readOBDResponse 21 PID_VEHICLE_SPEED
                 (power_on (noisy_bus PID_VEHICLE_SPEED 0x3C 0)))
     = Some (Some [0x3C; 0; 0; 0; 0]).
Proof.
  split; [| reflexivity].
  apply (C8_non_matching_traffic_ignored 0).
  - unfold CAN_TIMEOUT, ULONG_MOD. lia.
  - intros [| [| k]]; simpl; lia.
  - lia.
Defined.

(** One second after power-up, an ECU that answers the speed PID only:
    the speed exchange succeeds, the other four time out. *)
Lemma C7_sweep_order_is_fixed_witness :
  exists w' evs,
    loop 21 (world_at 1000 (ecu_bus 3 PID_VEHICLE_SPEED 0x3C 0)) = Done tt w'
    /\ trace w' = trace (world_at 1000 (ecu_bus 3 PID_VEHICLE_SPEED 0x3C 0)) ++ evs
    /\ queried evs =
         [PID_ENGINE_RPM; PID_VEHICLE_SPEED; PID_COOLANT_TEMP;
          PID_THROTTLE_POSITION; PID_ENGINE_LOAD].
Proof.
  apply (C7_sweep_order_is_fixed 0).
  - unfold CAN_TIMEOUT, ULONG_MOD. lia.
  - intros k. simpl. lia.
  - lia.
Defined.

Lemma C9_polling_clock_set_at_sweep_start_witness :
  sat (loop 21) (world_at 1000 quiet_bus) (fun _ w' =>
    lastRequestTime w' = 1000
    /\ exists rest,
         trace w' = StoreLastRequestTime 1000 :: rest
         /\ stores rest = []
         /\ queried rest =
              [PID_ENGINE_RPM; PID_VEHICLE_SPEED; PID_COOLANT_TEMP;
               PID_THROTTLE_POSITION; PID_ENGINE_LOAD]).
Proof.
  apply (C9_polling_clock_set_at_sweep_start 0).
  - unfold CAN_TIMEOUT, ULONG_MOD. lia.
  - intros k. simpl. lia.
  - lia.
Defined.

(** C9 as stated fails.  One second after power-up on a silent bus a
    sweep is due; [loop] stores the entry time 1000 first and sends the
    five requests after it, and the sweep is over at 1500, five
    timeouts later: the store is not after the sweep, and the value is
    not the time the sweep was completed. *)
Lemma C9_store_precedes_the_sweep :
  exists w',
    loop 21 (world_at 1000 quiet_bus) = Done tt w'
    /\ ~ stored_after_sweep (trace w')
    /\ lastRequestTime w' = 1000
    /\ clock w' = 1500 + 10.
Proof.
  eexists. split; [vm_compute; reflexivity |].
  split; [| split; reflexivity].
  intros H. cbn [trace] in H.
  specialize (H [] 1000 _ eq_refl). discriminate H.
Qed.

(** ** Concrete runs of the further properties *)

Lemma X1_speed_or_sentinel_witness :
  exists r w',
    readOBDResponse 21 PID_VEHICLE_SPEED
        (requested PID_VEHICLE_SPEED
           (power_on (noisy_bus PID_VEHICLE_SPEED 0x3C 0))) = Done r w'
    /\ match r with
       | None =>
           getVehicleSpeed 21 (power_on (noisy_bus PID_VEHICLE_SPEED 0x3C 0))
           = Done (-1) w'
       | Some d =>
           getVehicleSpeed 21 (power_on (noisy_bus PID_VEHICLE_SPEED 0x3C 0))
           = Done (at5 d 0) w'
           /\ 0 <= at5 d 0 <= 255
       end.
Proof.
  apply (X1_speed_or_sentinel 0).
  - unfold CAN_TIMEOUT, ULONG_MOD. lia.
  - intros [| [| k]]; simpl; lia.
  - intros [| [| k]] fr H; inversion H; unfold is_byte; simpl; lia.
  - lia.
Defined.

Lemma X2_coolant_or_sentinel_witness :
  exists r w',
    readOBDResponse 21 PID_COOLANT_TEMP
        (requested PID_COOLANT_TEMP
           (power_on (ecu_bus 3 PID_COOLANT_TEMP 0x5A 0))) = Done r w'
    /\ match r with
       | None =>
           getCoolantTemp 21 (power_on (ecu_bus 3 PID_COOLANT_TEMP 0x5A 0))
           = Done (-999) w'
       | Some d =>
           getCoolantTemp 21 (power_on (ecu_bus 3 PID_COOLANT_TEMP 0x5A 0))
           = Done (at5 d 0 - 40) w'
           /\ -40 <= at5 d 0 - 40 <= 215
       end.
Proof.
  apply (X2_coolant_or_sentinel 0).
  - unfold CAN_TIMEOUT, ULONG_MOD. lia.
  - intros k. simpl. lia.
  - intros k fr H. inversion H. unfold is_byte. simpl. lia.
  - lia.
Defined.

Lemma X3_percent_or_sentinel_witness :
  exists r w',
    readOBDResponse 21 PID_THROTTLE_POSITION
        (requested PID_THROTTLE_POSITION
           (power_on (ecu_bus 3 PID_THROTTLE_POSITION 0x80 0))) = Done r w'
    /\ match r with
       | None =>
           getThrottlePosition 21
             (power_on (ecu_bus 3 PID_THROTTLE_POSITION 0x80 0)) = Done (-1) w'
       | Some d =>
           getThrottlePosition 21
             (power_on (ecu_bus 3 PID_THROTTLE_POSITION 0x80 0))
           = Done ((at5 d 0 * 100) / 255) w'
           /\ 0 <= (at5 d 0 * 100) / 255 <= 100
       end.
Proof.
  apply (X3_percent_or_sentinel 0).
  - unfold CAN_TIMEOUT, ULONG_MOD. lia.
  - intros k. simpl. lia.
  - intros k fr H. inversion H. unfold is_byte. simpl. lia.
  - lia.
Defined.

Lemma X4_rpm_getter_range_witness :
  exists r w',
    readOBDResponse 21 PID_ENGINE_RPM
        (requested PID_ENGINE_RPM
           (power_on (ecu_bus 4 PID_ENGINE_RPM 0x1A 0xF8))) = Done r w'
    /\ match r with
       | None =>
           getEngineRPM 21 (power_on (ecu_bus 4 PID_ENGINE_RPM 0x1A 0xF8))
           = Done (-1) w'
       | Some d =>
           exists v,
             getEngineRPM 21 (power_on (ecu_bus 4 PID_ENGINE_RPM 0x1A 0xF8))
             = Done v w'
             /\ -8192 <= v <= 8191
             /\ (at5 d 0 < 128 ->
                 v = (at5 d 0 * 256 + at5 d 1) / 4 /\ 0 <= v)
       end.
Proof.
  apply (X4_rpm_getter_range 0).
  - unfold CAN_TIMEOUT, ULONG_MOD. lia.
  - intros k. simpl. lia.
  - intros k fr H. inversion H. unfold is_byte. simpl. lia.
  - lia.
Defined.

Lemma rpm_exact_iff_witness :
  0 <= (0x1A * 256 + 0xF8) / 4 <= 16383
  /\ (rpm_of_response [0x1A; 0xF8; 0; 0; 0] = (0x1A * 256 + 0xF8) / 4
      <-> 0x1A < 128).
Proof.
  apply (rpm_exact_iff 0x1A 0xF8 0 0 0); unfold is_byte; lia.
Defined.


Lemma X7_exchange_budget_witness :
  exists r w',
    readOBDResponse 21 PID_VEHICLE_SPEED
        (power_on (noisy_bus PID_VEHICLE_SPEED 0x3C 0)) = Done r w'
    /\ (polls (power_on (noisy_bus PID_VEHICLE_SPEED 0x3C 0)) <= polls w'
        <= polls (power_on (noisy_bus PID_VEHICLE_SPEED 0x3C 0)) + 20)%nat
    /\ 0 <= clock w' - clock (power_on (noisy_bus PID_VEHICLE_SPEED 0x3C 0))
       < CAN_TIMEOUT + 5 + 0
    /\ trace w' = trace (power_on (noisy_bus PID_VEHICLE_SPEED 0x3C 0)).
Proof.
  apply (X7_exchange_budget 0).
  - unfold CAN_TIMEOUT, ULONG_MOD. lia.
  - intros [| [| k]]; simpl; lia.
  - lia.
Defined.

Lemma X8_loop_cost_witness :
  sat (loop 21) (world_at 1000 quiet_bus) (fun _ w' =>
    10 <= clock w' - 1000 < 5 * (CAN_TIMEOUT + 5 + 0) + 10
    /\ (0 <= polls w' <= 0 + 100)%nat).
Proof.
  apply (X8_loop_cost 0).
  - unfold CAN_TIMEOUT, ULONG_MOD. lia.
  - intros k. simpl. lia.
  - lia.
Defined.

Lemma X9_no_sweep_right_after_a_sweep_witness :
  sat (loop 21 ;; loop 21)
      (world_at 1000 (ecu_bus 3 PID_VEHICLE_SPEED 0x3C 0)) (fun _ w' =>
    exists rest,
      trace w' = StoreLastRequestTime 1000 :: rest
      /\ stores rest = []
      /\ queried rest =
           [PID_ENGINE_RPM; PID_VEHICLE_SPEED; PID_COOLANT_TEMP;
            PID_THROTTLE_POSITION; PID_ENGINE_LOAD]).
Proof.
  apply (X9_no_sweep_right_after_a_sweep 0).
  - unfold CAN_TIMEOUT, ULONG_MOD. lia.
  - intros k. simpl. lia.
  - lia.
  - lia.
  - reflexivity.
Defined.

Lemma X10_first_loop_sweeps_witness :
  sat (setup 21 true ;; loop 21)
      (power_on (ecu_bus 3 PID_VEHICLE_SPEED 0x3C 0)) (fun _ w' =>
    lastRequestTime w' = 1000
    /\ stores (trace w') = [1000]
    /\ queried (trace w') =
         [PID_ENGINE_RPM; PID_VEHICLE_SPEED; PID_COOLANT_TEMP;
          PID_THROTTLE_POSITION; PID_ENGINE_LOAD]).
Proof.
  apply (X10_first_loop_sweeps 0).
  - unfold CAN_TIMEOUT, ULONG_MOD. lia.
  - intros k. simpl. lia.
  - lia.
Defined.

(** 500 ms after the counter wrapped, 1100 ms after a store made
    600 ms before the wrap. *)
Lemma X12_due_test_survives_rollover_witness :
  exists w' evs,
    loop 21 {| clock := 2 ^ 32 + 500; bus := quiet_bus; polls := 0;
               lastRequestTime := 2 ^ 32 - 600; trace := [] |} = Done tt w'
    /\ trace w' = [] ++ evs
    /\ queried evs =
         [PID_ENGINE_RPM; PID_VEHICLE_SPEED; PID_COOLANT_TEMP;
          PID_THROTTLE_POSITION; PID_ENGINE_LOAD].
Proof.
  apply (X12_due_test_survives_rollover 0) with (t0 := 2 ^ 32 - 600).
  - unfold CAN_TIMEOUT, ULONG_MOD. lia.
  - intros k. simpl. lia.
  - lia.
  - reflexivity.
  - unfold ULONG_MOD. simpl. lia.
Defined.

Lemma X13_one_report_per_pid_witness :
  sat (loop 21) (world_at 1000 (ecu_bus 3 PID_VEHICLE_SPEED 0x3C 0))
    (fun _ w' =>
      exists evs (l1 l2 l3 l4 l5 : string),
        trace w' = trace (world_at 1000 (ecu_bus 3 PID_VEHICLE_SPEED 0x3C 0)) ++ evs
        /\ printed_lines evs
           = ["--- Reading OBD-II Data ---"; l1; l2; l3; l4; l5; ""]%string
        /\ (l1 = " RPM" \/ l1 = "Engine RPM: READ FAILED")%string
        /\ (l2 = " km/h" \/ l2 = "Vehicle Speed: READ FAILED")%string
        /\ (l3 = " °C" \/ l3 = "Coolant Temp: READ FAILED")%string
        /\ (l4 = " %" \/ l4 = "Throttle Position: READ FAILED")%string
        /\ (l5 = " %" \/ l5 = "Engine Load: READ FAILED")%string).
Proof.
  apply (X13_one_report_per_pid 0).
  - unfold CAN_TIMEOUT, ULONG_MOD. lia.
  - intros k. simpl. lia.
  - lia.
  - reflexivity.
Defined.

Lemma X14_answer_in_time_is_returned_witness :
  exists w',
    readOBDResponse 21 PID_VEHICLE_SPEED
        (power_on (noisy_bus PID_VEHICLE_SPEED 0x3C 0))
      = Done (Some [0x3C; 0; 0; 0; 0]) w'
    /\ polls w' = S (polls (power_on (noisy_bus PID_VEHICLE_SPEED 0x3C 0)) + 2).
Proof.
  apply (X14_answer_in_time_is_returned 0).
  - unfold CAN_TIMEOUT, ULONG_MOD. lia.
  - intros [| [| k]]; simpl; lia.
  - unfold CAN_TIMEOUT. lia.
  - lia.
  - intros [| [| i]] Hi; [reflexivity | reflexivity | lia].
  - reflexivity.
Defined.
